(** * Meeting summarizer backend (backend/main.py): model and properties

    A shallow embedding of the FastAPI backend: the defensive text
    extraction [extract_text], the media classifier [is_video_file], the
    transcription routine [transcribe_with_whisper_local], the four
    prompt/response operations and the [process_meeting] endpoint.

    Python [str] values are sequences of Unicode code points, so that
    [str.strip], [str.splitlines] and [str.startswith] can be written with
    the character classes CPython uses.  External collaborators (the
    uploaded file, the temporary directory, ffmpeg, Whisper, Gemini) are
    oracles of a [Runtime]; every call to one of them is recorded in an
    event log, which is the state threaded through the effectful code. *)

From Stdlib Require Import List NArith ZArith Bool String Ascii Lia.
From ExtLib Require Import Structures.Monad Structures.MonadExc Data.Monads.EitherMonad.
Import ListNotations.
Import MonadNotation.
Local Open Scope monad_scope.
Local Open Scope N_scope.

Set Implicit Arguments.
Set Warnings "-register-all".

(** ** Python strings *)

Module PyStr.

(** A Python [str]: its code points, in order. *)
Definition pystr := list N.

Definition pystr_eqb (a b : pystr) : bool :=
  if list_eq_dec N.eq_dec a b then true else false.

(** Bytes of a source literal. *)
Fixpoint bytes_of_string (s : string) : list N :=
  match s with
  | EmptyString => []
  | String c r => N_of_ascii c :: bytes_of_string r
  end.

(** UTF-8 decoding of the bytes of a source literal into code points. *)
Fixpoint utf8_decode (bs : list N) : pystr :=
  match bs with
  | [] => []
  | b0 :: r0 =>
    if b0 <? 128 then b0 :: utf8_decode r0
    else match r0 with
    | [] => [b0]
    | b1 :: r1 =>
      if b0 <? 224 then ((b0 - 192) * 64 + (b1 - 128)) :: utf8_decode r1
      else match r1 with
      | [] => [b0; b1]
      | b2 :: r2 =>
        if b0 <? 240
        then ((b0 - 224) * 4096 + (b1 - 128) * 64 + (b2 - 128)) :: utf8_decode r2
        else match r2 with
        | [] => [b0; b1; b2]
        | b3 :: r3 =>
          ((b0 - 240) * 262144 + (b1 - 128) * 4096 + (b2 - 128) * 64 + (b3 - 128))
            :: utf8_decode r3
        end
      end
    end
  end.

(** The [str] denoted by a source literal. *)
Definition u8 (s : string) : pystr := utf8_decode (bytes_of_string s).

Arguments u8 : simpl never.

(** [str.isspace] on one code point: CPython's [_Py_ascii_whitespace]
    table below 128 and [_PyUnicode_IsWhitespace] above. *)
Definition isspace (c : N) : bool :=
  ((9 <=? c) && (c <=? 13)) || ((28 <=? c) && (c <=? 32))
  || (c =? 133) || (c =? 160) || (c =? 5760)
  || ((8192 <=? c) && (c <=? 8202))
  || (c =? 8232) || (c =? 8233) || (c =? 8239) || (c =? 8287) || (c =? 12288).

(** Line boundaries of [str.splitlines] ([Py_UNICODE_ISLINEBREAK]). *)
Definition islinebreak (c : N) : bool :=
  ((10 <=? c) && (c <=? 13)) || ((28 <=? c) && (c <=? 30))
  || (c =? 133) || (c =? 8232) || (c =? 8233).

Fixpoint lstrip (s : pystr) : pystr :=
  match s with
  | [] => []
  | c :: r => if isspace c then lstrip r else s
  end.

Definition rstrip (s : pystr) : pystr := rev (lstrip (rev s)).

(** [s.strip()] *)
Definition strip (s : pystr) : pystr := rstrip (lstrip s).

(** [s.startswith(p)] *)
Fixpoint startswith (s p : pystr) {struct p} : bool :=
  match p, s with
  | [], _ => true
  | _ :: _, [] => false
  | a :: p', b :: s' => (a =? b) && startswith s' p'
  end.

(** [s.splitlines()]: [cur] is the line being read.  A line is closed at
    each boundary ("\r\n" counting as one); the text left after the last
    boundary is a line only when it is not empty. *)
Fixpoint splitlines_from (cur s : pystr) : list pystr :=
  match s with
  | [] => match cur with [] => [] | _ :: _ => [cur] end
  | c :: r =>
    if islinebreak c then
      match r with
      | d :: r' =>
        if (c =? 13) && (d =? 10) then cur :: splitlines_from [] r'
        else cur :: splitlines_from [] r
      | [] => cur :: splitlines_from [] r
      end
    else splitlines_from (cur ++ [c]) r
  end.

Definition splitlines (s : pystr) : list pystr := splitlines_from [] s.

(** [sep.join(parts)] *)
Fixpoint join (sep : pystr) (parts : list pystr) : pystr :=
  match parts with
  | [] => []
  | [p] => p
  | p :: rest => p ++ sep ++ join sep rest
  end.

(** Truth value of a [str]. *)
Definition nonempty (s : pystr) : bool :=
  match s with [] => false | _ :: _ => true end.

End PyStr.
Import PyStr.

(** ** Python values and exceptions *)

Module PyVal.

(** An instance of a subclass of [Exception]: its class name and what
    [str(e)] gives.  [KeyboardInterrupt] and [SystemExit], which
    [except Exception] does not catch, are outside the model. *)
Record exn := mkExn { exc_class : pystr; exc_str : pystr }.

(** The values the backend handles: what [json.loads] returns, and
    objects with named attributes.  An attribute is a value or a property
    whose getter raises (as the Gemini response's [text] does when the
    response holds no valid part). *)
Inductive pyval :=
| PNone
| PBool (b : bool)
| PInt (z : Z)
| PFloat (bits : N)
| PStr (s : pystr)
| PList (l : list pyval)
| PDict (d : list (pystr * pyval))
| PObj (cls : pystr) (attrs : list (pystr * (exn + pyval))).

Definition type_name (v : pyval) : pystr :=
  match v with
  | PNone => u8 "NoneType"
  | PBool _ => u8 "bool"
  | PInt _ => u8 "int"
  | PFloat _ => u8 "float"
  | PStr _ => u8 "str"
  | PList _ => u8 "list"
  | PDict _ => u8 "dict"
  | PObj cls _ => cls
  end.

(** [bool(v)]; a float is given by its binary64 bits, both zeros are false. *)
Definition truthy (v : pyval) : bool :=
  match v with
  | PNone => false
  | PBool b => b
  | PInt z => negb (z =? 0)%Z
  | PFloat bits => negb (bits mod 9223372036854775808 =? 0)
  | PStr s => nonempty s
  | PList l => match l with [] => false | _ :: _ => true end
  | PDict d => match d with [] => false | _ :: _ => true end
  | PObj _ _ => true
  end.

Fixpoint assoc {A : Type} (k : pystr) (l : list (pystr * A)) : option A :=
  match l with
  | [] => None
  | (k', v) :: r => if pystr_eqb k' k then Some v else assoc k r
  end.

Definition AttributeError (v : pyval) (name : pystr) : exn :=
  mkExn (u8 "AttributeError")
        (u8 "'" ++ type_name v ++ u8 "' object has no attribute '" ++ name ++ u8 "'").

Definition TypeError (msg : pystr) : exn := mkExn (u8 "TypeError") msg.
Definition IndexError (msg : pystr) : exn := mkExn (u8 "IndexError") msg.
Definition KeyError (msg : pystr) : exn := mkExn (u8 "KeyError") msg.

Definition is_AttributeError (e : exn) : bool :=
  pystr_eqb (exc_class e) (u8 "AttributeError").

(** [v.name] for a data attribute [name] (none of the names the backend
    reads is an attribute of a built-in type). *)
Definition py_getattr (v : pyval) (name : pystr) : exn + pyval :=
  match v with
  | PObj _ attrs =>
    match assoc name attrs with
    | Some (inr a) => inr a
    | Some (inl e) => inl e
    | None => inl (AttributeError v name)
    end
  | _ => inl (AttributeError v name)
  end.

(** [hasattr(v, name)]: false on [AttributeError] only, any other
    exception of the getter propagates. *)
Definition py_hasattr (v : pyval) (name : pystr) : exn + bool :=
  match py_getattr v name with
  | inr _ => inr true
  | inl e => if is_AttributeError e then inr false else inl e
  end.

(** [v[i]] for a non-negative literal index. *)
Definition py_index (v : pyval) (i : nat) : exn + pyval :=
  match v with
  | PList l =>
    match nth_error l i with
    | Some x => inr x
    | None => inl (IndexError (u8 "list index out of range"))
    end
  | PStr s =>
    match nth_error s i with
    | Some c => inr (PStr [c])
    | None => inl (IndexError (u8 "string index out of range"))
    end
  | PDict _ => inl (KeyError (u8 "0"))
  | _ => inl (TypeError (u8 "'" ++ type_name v ++ u8 "' object is not subscriptable"))
  end.

Definition not_callable (m : pyval) : exn :=
  TypeError (u8 "'" ++ type_name m ++ u8 "' object is not callable").

(** [v.strip()]: only a [str] has the method. *)
Definition py_strip (v : pyval) : exn + pystr :=
  match v with
  | PStr s => inr (strip s)
  | _ => m <- py_getattr v (u8 "strip") ;; raise (not_callable m)
  end.

(** [v[key]] read off a dict, [None] when [v] is no dict or lacks the key. *)
Definition dict_get (v : pyval) (key : pystr) : option pyval :=
  match v with
  | PDict d => assoc key d
  | _ => None
  end.

(** [v.get(key, default)]: only a [dict] has the method. *)
Definition py_get (v : pyval) (key : pystr) (default : pyval) : exn + pyval :=
  match v with
  | PDict d => inr (match assoc key d with Some x => x | None => default end)
  | _ => m <- py_getattr v (u8 "get") ;; raise (not_callable m)
  end.

End PyVal.
Import PyVal.

(** ** Safe extraction *)

(** The first [try] block of [extract_text]: [Some s] when it returns [s],
    [None] when control falls through to the second block. *)
Definition extract_text_direct (response : pyval) : exn + option pystr :=
  has <- py_hasattr response (u8 "text") ;;
  if (has : bool) then
    t <- py_getattr response (u8 "text") ;;
    if truthy t then
      t' <- py_getattr response (u8 "text") ;;
      s <- py_strip t' ;;
      ret (Some s)
    else ret None
  else ret None.

(** [response.candidates[0].content.parts[0].text] *)
Definition first_part_text (response : pyval) : exn + pyval :=
  candidates <- py_getattr response (u8 "candidates") ;;
  candidate <- py_index candidates 0 ;;
  content <- py_getattr candidate (u8 "content") ;;
  parts <- py_getattr content (u8 "parts") ;;
  part <- py_index parts 0 ;;
  py_getattr part (u8 "text").

(** The second [try] block: [return <first part's text>.strip()]. *)
Definition extract_text_nested (response : pyval) : exn + pystr :=
  t <- first_part_text response ;;
  py_strip t.

Definition extract_text (response : pyval) : exn + pystr :=
  r <- catch (extract_text_direct response) (fun _ => ret None) ;;
  match r with
  | Some s => ret s
  | None => catch (extract_text_nested response) (fun _ => ret [])
  end.

(** ** The world outside the process *)

Record UploadFile := mkUpload {
  filename : option pystr;
  content_type : option pystr
}.

Definition bytes := list N.

(** One entry per call that leaves the process, in the order of the calls. *)
Inductive event :=
| EvRead (upload : UploadFile)
| EvMkdtemp
| EvWrite (path : pystr) (data : bytes)
| EvFfmpeg (cmd : list pystr)
| EvTranscribe (path : pystr)
| EvGenerate (prompt : pystr)
| EvCleanup (tmpdir : pystr).

(** The library functions and external services the backend calls.  The
    three pure functions are those of the Python runtime; a service answers
    from the history of the calls made so far and its arguments, and
    either returns or raises. *)
Record Runtime := mkRuntime {
  Path_suffix : pystr -> pystr;
  str_lower : pystr -> pystr;
  json_loads : pystr -> exn + pyval;
  upload_read : list event -> UploadFile -> exn + bytes;
  mkdtemp : list event -> exn + pystr;
  write_file : list event -> pystr -> bytes -> exn + unit;
  subprocess_run : list event -> list pystr -> exn + unit;
  whisper_transcribe : list event -> pystr -> exn + pyval;
  generate_content : list event -> pystr -> exn + pyval
}.

(** Effectful code: the event log goes in and comes out, extended, with a
    result or the exception raised. *)
Definition Py (A : Type) : Type := list event -> list event * (exn + A).

#[global] Instance Monad_Py : Monad Py :=
{ ret := fun _ a log => (log, inr a)
; bind := fun _ _ m k log =>
    match m log with
    | (log', inl e) => (log', inl e)
    | (log', inr a) => k a log'
    end
}.

#[global] Instance Exception_Py : MonadExc exn Py :=
{ raise := fun _ e log => (log, inl e)
; catch := fun _ m h log =>
    match m log with
    | (log', inl e) => h e log'
    | (log', inr a) => (log', inr a)
    end
}.

(** A pure computation that may raise. *)
Definition liftE {A : Type} (c : exn + A) : Py A := fun log => (log, c).

(** A call to the outside: logged, then answered by the oracle. *)
Definition perform {A : Type} (ev : event) (answer : list event -> exn + A) : Py A :=
  fun log => (log ++ [ev], answer log).

(** Source literal in which a backquote stands for the double quote. *)
Definition lit (s : string) : pystr :=
  map (fun c => if c =? 96 then 34 else c) (u8 s).

(** ** Prompt templates: the literal pieces of the four f-strings *)

Definition main_prompt_0 : pystr := Eval vm_compute in lit "
Summarize the following meeting in ".

Definition main_prompt_1 : pystr := Eval vm_compute in lit ".

Include clearly:
- Key discussion points
- Decisions taken
- Action items
- Deadlines / timelines
- Responsibilities / owners

Keep it concise but complete.

TRANSCRIPT:
".

Definition main_prompt_2 : pystr := Eval vm_compute in lit "
".

Definition focused_prompt_0 : pystr := Eval vm_compute in lit "
You are an expert meeting insight extraction engine.

USER CONCEPT PROMPT (FOCUS TOPICS):
".

Definition focused_prompt_1 : pystr := Eval vm_compute in lit "

YOUR JOB:
Extract ONLY the information from the meeting that is relevant to the user's conceptual topics above.
Examples of conceptual topics: `deadlines and responsibilities`, `actions and decisions`, `risks`,
`budget approvals`, `client complaints`, etc.

You MUST:
- Identify decisions related to the focus topics
- Identify responsibilities and owners related to the focus topics
- Identify action items related to the focus topics
- Identify deadlines or timelines if they are mentioned or clearly implied
- Use the transcript content and reasonable inference (never random guessing)
- Ignore all unrelated conversation

STRICT OUTPUT RULES:
- OUTPUT MUST ALWAYS BE IN ENGLISH
- OUTPUT MUST BEGIN IMMEDIATELY WITH BULLET POINTS (• ...)
- DO NOT write any introduction, explanation, or commentary
- DO NOT say things like `Here is`, `Okay`, `I will`, `Based on`
- DO NOT apologize
- DO NOT refuse
- DO NOT mention the transcript itself
- DO NOT hallucinate facts that are not supported or reasonably implied

BULLET FORMAT:
- Each bullet should be a complete, meaningful line, for example:
  • David will contact external market research firms before the next meeting
  • Anna is responsible for reviewing the customer account lifecycle
  • Decision: the team will investigate the root cause of the sales decline
  • Deadline: shortlist of vendors must be ready as soon as possible

IF THERE IS NO CLEAR, RELEVANT INFORMATION:
- Output exactly ONE bullet:
  • No relevant information was found in the meeting for the requested focus topics

TRANSCRIPT:
".

Definition focused_prompt_2 : pystr := Eval vm_compute in lit "
".

Definition insights_prompt_0 : pystr := Eval vm_compute in lit "
Extract structured meeting intelligence from the transcript.

OUTPUT JSON EXACTLY IN THIS FORMAT:
{
  `actions`: [
    { `task`: `...`, `owner`: `...`, `deadline`: `...` }
  ],
  `decisions`: [`...`],
  `owners`: [
    { `person`: `...`, `responsibility`: `...` }
  ],
  `risks`: [`...`]
}

RULES:
- Infer missing information if implied (e.g., `you check this` → assign to speaker)
- Leave fields as empty strings `` if unknown (do NOT invent)
- No apologies
- No explanations
- ONLY return valid JSON that matches the structure above.

TRANSCRIPT:
".

Definition insights_prompt_1 : pystr := Eval vm_compute in lit "
".

Definition diarize_prompt_0 : pystr := Eval vm_compute in lit "
Rewrite the transcript with inferred speaker labels like Speaker 1, Speaker 2, etc.

Example format:
Speaker 1: ...
Speaker 2: ...
Speaker 1: ...

TRANSCRIPT:
".

Definition diarize_prompt_1 : pystr := Eval vm_compute in lit "
".

Definition main_prompt (transcript language : pystr) : pystr :=
  main_prompt_0 ++ language ++ main_prompt_1 ++ transcript ++ main_prompt_2.

Definition focused_prompt (transcript focus_prompt : pystr) : pystr :=
  focused_prompt_0 ++ focus_prompt ++ focused_prompt_1 ++ transcript ++ focused_prompt_2.

Definition insights_prompt (transcript : pystr) : pystr :=
  insights_prompt_0 ++ transcript ++ insights_prompt_1.

Definition diarize_prompt (transcript : pystr) : pystr :=
  diarize_prompt_0 ++ transcript ++ diarize_prompt_1.

Arguments main_prompt : simpl never.
Arguments focused_prompt : simpl never.
Arguments insights_prompt : simpl never.
Arguments diarize_prompt : simpl never.

(** ** The backend *)

(** A response as it leaves the server: status, media type and body, a
    JSON value or, for plain text, a string. *)
Record HttpResponse := mkResponse {
  status_code : Z;
  media_type : pystr;
  content : pyval
}.

(** [JSONResponse(status_code=..., content=...)] *)
Definition JSONResponse (status_code : Z) (content : pyval) : HttpResponse :=
  mkResponse status_code (u8 "application/json") content.

(** The answer of the server to an exception that leaves the handler. *)
Definition PlainTextResponse (status_code : Z) (text : pystr) : HttpResponse :=
  mkResponse status_code (u8 "text/plain; charset=utf-8") (PStr text).

(** Whether a float, given by its binary64 bits, is neither an infinity
    nor a NaN. *)
Definition float_finite (bits : N) : bool :=
  negb ((bits / 4503599627370496) mod 2048 =? 2047).

(** Whether a string holds no surrogate code point, so that it can be
    encoded as UTF-8. *)
Definition utf8_encodable (s : pystr) : bool :=
  forallb (fun c => negb ((55296 <=? c) && (c <=? 57343))) s.

(** Whether the framework can render a value returned by a handler:
    [json.dumps(..., allow_nan=False)] refuses infinities and NaN, and the
    encoding of the text as UTF-8 refuses a lone surrogate.  The values a
    handler of this backend returns are those of [json.loads] and strings;
    an object of another class is taken as not rendered. *)
Fixpoint json_renderable (v : pyval) : bool :=
  match v with
  | PNone | PBool _ | PInt _ => true
  | PFloat bits => float_finite bits
  | PStr s => utf8_encodable s
  | PList l => forallb json_renderable l
  | PDict d =>
    forallb (fun kv => match kv with
                       | (k, x) => utf8_encodable k && json_renderable x
                       end) d
  | PObj _ _ => false
  end.

(** What FastAPI sends for a dict returned by a handler: the dict as JSON
    with status 200, or, when rendering it raises, the server's answer to
    an unhandled exception. *)
Definition fastapi_response (body : pyval) : HttpResponse :=
  if json_renderable body
  then JSONResponse 200 body
  else PlainTextResponse 500 (u8 "Internal Server Error").

Definition video_exts : list pystr :=
  [u8 ".mp4"; u8 ".mkv"; u8 ".avi"; u8 ".mov"; u8 ".webm"].

(** [a or b] on strings. *)
Definition str_or (a b : pystr) : pystr := if nonempty a then a else b.

(** [tmpdir_path / name], for a relative [name]. *)
Definition path_join (dir name : pystr) : pystr := dir ++ u8 "/" ++ name.

Definition FALLBACK_BULLET : pystr := Eval vm_compute in
  u8 "• No relevant information was found in the meeting for the requested focus topics".

Definition BULLET : pystr := Eval vm_compute in u8 "•".

Definition BULLET_SPACE : pystr := Eval vm_compute in u8 "• ".

(** The one-character string of a line feed. *)
Definition NEWLINE : pystr := [10].

Definition EMPTY_INSIGHTS : pyval :=
  PDict [(u8 "actions", PList []); (u8 "decisions", PList []);
         (u8 "owners", PList []); (u8 "risks", PList [])].

(** The [for] loop of [summarize_focused]: one [append] per line. *)
Definition bullet_line (line : pystr) : pystr :=
  if negb (startswith line BULLET) then BULLET_SPACE ++ line else line.

Definition bullet_loop (lines : list pystr) : list pystr :=
  fold_left (fun bullet_lines line => bullet_lines ++ [bullet_line line]) lines [].

(** The body of [if not text.lstrip().startswith("•")]. *)
Definition rebullet (text : pystr) : pystr :=
  let lines := map strip (filter (fun line => nonempty (strip line)) (splitlines text)) in
  match lines with
  | [] => FALLBACK_BULLET
  | _ :: _ => join NEWLINE (bullet_loop lines)
  end.

(** [summarize_focused] from the assignment of [text] on. *)
Definition focused_result (text : pystr) : pystr :=
  if negb (nonempty text) then FALLBACK_BULLET
  else if negb (startswith (lstrip text) BULLET) then rebullet text
  else text.

Section Backend.

Variable R : Runtime.

(** *** File helpers *)

Definition is_video_file (filename content_type : option pystr) : bool :=
  if match filename with
     | Some f => nonempty f && existsb (pystr_eqb (str_lower R (Path_suffix R f))) video_exts
     | None => false
     end
  then true
  else if match content_type with
          | Some c => nonempty c && startswith c (u8 "video/")
          | None => false
          end
  then true
  else false.

Definition ffmpeg_cmd (input_path output_path : pystr) : list pystr :=
  [u8 "ffmpeg"; u8 "-y"; u8 "-i"; input_path; u8 "-vn"; u8 "-ac"; u8 "1";
   u8 "-ar"; u8 "16000"; output_path].

Definition extract_audio_with_ffmpeg (input_path output_path : pystr) : Py unit :=
  let cmd := ffmpeg_cmd input_path output_path in
  perform (EvFfmpeg cmd) (fun log => subprocess_run R log cmd).

(** [with open(path, "wb") as f: f.write(data)] *)
Definition write_bytes (path : pystr) (data : bytes) : Py unit :=
  perform (EvWrite path data) (fun log => write_file R log path data).

Definition whisper_model_transcribe (path : pystr) : Py pyval :=
  perform (EvTranscribe path) (fun log => whisper_transcribe R log path).

(** [with tempfile.TemporaryDirectory() as tmpdir: body]: the directory is
    removed when the block is left, normally or by an exception. *)
Definition with_TemporaryDirectory {A : Type} (body : pystr -> Py A) : Py A :=
  fun log =>
    match mkdtemp R log with
    | inl e => (log ++ [EvMkdtemp], inl e)
    | inr tmpdir =>
      let (log', r) := body tmpdir (log ++ [EvMkdtemp]) in
      (log' ++ [EvCleanup tmpdir], r)
    end.

Definition upload_name (upload : UploadFile) (default : pystr) : pystr :=
  match filename upload with
  | Some f => str_or f default
  | None => default
  end.

(** [input_path] of the video branch and of the audio branch, and
    [audio_path]. *)
Definition video_input_path (upload : UploadFile) (tmpdir_path : pystr) : pystr :=
  let input_ext := str_or (Path_suffix R (upload_name upload (u8 "input"))) (u8 ".mp4") in
  path_join tmpdir_path (u8 "input" ++ input_ext).

Definition audio_input_path (upload : UploadFile) (tmpdir_path : pystr) : pystr :=
  let input_ext := str_or (Path_suffix R (upload_name upload (u8 "audio"))) (u8 ".wav") in
  path_join tmpdir_path (u8 "audio" ++ input_ext).

Definition extracted_audio_path (tmpdir_path : pystr) : pystr :=
  path_join tmpdir_path (u8 "audio.wav").

Definition transcribe_with_whisper_local (upload : UploadFile) (file_bytes : bytes)
  : Py pystr :=
  result <- with_TemporaryDirectory (fun tmpdir_path =>
    if is_video_file (filename upload) (content_type upload) then
      let input_path := video_input_path upload tmpdir_path in
      write_bytes input_path file_bytes ;;
      let audio_path := extracted_audio_path tmpdir_path in
      extract_audio_with_ffmpeg input_path audio_path ;;
      whisper_model_transcribe audio_path
    else
      let input_path := audio_input_path upload tmpdir_path in
      write_bytes input_path file_bytes ;;
      whisper_model_transcribe input_path) ;;
  t <- liftE (py_get result (u8 "text") (PStr [])) ;;
  liftE (py_strip t).

(** *** Summaries, insights, diarization *)

Definition gemini_generate_content (prompt : pystr) : Py pyval :=
  perform (EvGenerate prompt) (fun log => generate_content R log prompt).

Definition summarize_main (transcript language : pystr) : Py pystr :=
  response <- gemini_generate_content (main_prompt transcript language) ;;
  liftE (extract_text response).

Definition summarize_focused (transcript focus_prompt : pystr) : Py pystr :=
  response <- gemini_generate_content (focused_prompt transcript focus_prompt) ;;
  extracted <- liftE (extract_text response) ;;
  ret (focused_result (strip extracted)).

Definition extract_structured_insights (transcript : pystr) : Py pyval :=
  response <- gemini_generate_content (insights_prompt transcript) ;;
  extracted <- liftE (extract_text response) ;;
  catch (liftE (json_loads R extracted)) (fun _ => ret EMPTY_INSIGHTS).

Definition generate_diarized_transcript (transcript : pystr) : Py pystr :=
  response <- gemini_generate_content (diarize_prompt transcript) ;;
  liftE (extract_text response).

(** *** API endpoint *)

Definition error_body (prefix : pystr) (e : exn) : pyval :=
  PDict [(u8 "error", PStr (prefix ++ exc_str e))].

(** [focused_summary = ""], then the call of [summarize_focused] under
    [if focus_prompt.strip()]. *)
Definition focused_summary_step (transcript_text focus_prompt : pystr) : Py pystr :=
  if nonempty (strip focus_prompt)
  then summarize_focused transcript_text (strip focus_prompt)
  else ret [].

(** The third [try] block of [process_meeting]. *)
Definition summaries_and_insights (transcript_text language focus_prompt : pystr)
  : Py pyval :=
  summary <- summarize_main transcript_text language ;;
  focused_summary <- focused_summary_step transcript_text focus_prompt ;;
  structured <- extract_structured_insights transcript_text ;;
  diarized <- generate_diarized_transcript transcript_text ;;
  actions <- liftE (py_get structured (u8 "actions") (PList [])) ;;
  decisions <- liftE (py_get structured (u8 "decisions") (PList [])) ;;
  owners <- liftE (py_get structured (u8 "owners") (PList [])) ;;
  risks <- liftE (py_get structured (u8 "risks") (PList [])) ;;
  ret (PDict [(u8 "summary", PStr summary);
              (u8 "focused_summary", PStr focused_summary);
              (u8 "actions", actions);
              (u8 "decisions", decisions);
              (u8 "owners", owners);
              (u8 "risks", risks);
              (u8 "transcript", PStr transcript_text);
              (u8 "diarized", PStr diarized)]).

Definition audio_read (audio : UploadFile) : Py bytes :=
  perform (EvRead audio) (fun log => upload_read R log audio).

(** [process_meeting]: the three [try] blocks with their error answers;
    the dict returned at the end of the third goes through the framework. *)
Definition process_meeting (audio : UploadFile) (language focus_prompt : pystr)
  : list event -> list event * HttpResponse :=
  fun log =>
    match audio_read audio log with
    | (log1, inl e) =>
      (log1, JSONResponse 400 (error_body (u8 "Failed to read file: ") e))
    | (log1, inr file_bytes) =>
      match transcribe_with_whisper_local audio file_bytes log1 with
      | (log2, inl e) =>
        (log2, JSONResponse 500 (error_body (u8 "Transcription failed: ") e))
      | (log2, inr transcript_text) =>
        match summaries_and_insights transcript_text language focus_prompt log2 with
        | (log3, inl e) =>
          (log3, JSONResponse 500 (error_body (u8 "Processing failed: ") e))
        | (log3, inr body) => (log3, fastapi_response body)
        end
      end
    end.

End Backend.

(** ** A sample runtime, for running the model on concrete requests *)

Module Sample.

(** [PurePosixPath(p).name]: the last component that is neither empty nor
    a single dot. *)
Fixpoint split_on (sep : N) (cur s : pystr) : list pystr :=
  match s with
  | [] => [cur]
  | c :: r => if c =? sep then cur :: split_on sep [] r else split_on sep (cur ++ [c]) r
  end.

Definition posix_name (p : pystr) : pystr :=
  last (filter (fun x => nonempty x && negb (pystr_eqb x (u8 ".")))
               (split_on 47 [] p)) [].

(** Index of the last dot of [name], counted from the end; [None] without one. *)
Fixpoint dot_from_end (rname : pystr) (k : nat) : option nat :=
  match rname with
  | [] => None
  | c :: r => if c =? 46 then Some k else dot_from_end r (S k)
  end.

(** [PurePosixPath(p).suffix] as in CPython 3.12: the text from the last
    dot of the name, unless that dot is its first or its last character. *)
Definition posix_suffix (p : pystr) : pystr :=
  let name := posix_name p in
  match dot_from_end (rev name) 0 with
  | Some k =>
    let i := (List.length name - 1 - k)%nat in
    if (Nat.ltb 0 i && Nat.ltb i (List.length name - 1))%bool then skipn i name else []
  | None => []
  end.

(** [str.lower] on the letters A to Z. *)
Definition ascii_lower (s : pystr) : pystr :=
  map (fun c => if (65 <=? c) && (c <=? 90) then c + 32 else c) s.

Definition JSONDecodeError : exn :=
  mkExn (u8 "JSONDecodeError") (u8 "Expecting value: line 1 column 1 (char 0)").

Definition sample_dict : list (pystr * pyval) :=
  [(u8 "actions",
    PList [PDict [(u8 "task", PStr (u8 "ship")); (u8 "owner", PStr (u8 "Ann"));
                  (u8 "deadline", PStr [])]]);
   (u8 "decisions", PList [PStr (u8 "go")]);
   (u8 "owners",
    PList [PDict [(u8 "person", PStr (u8 "Ann")); (u8 "responsibility", PStr (u8 "release"))]]);
   (u8 "risks", PList [])].

(** A few documents and their [json.loads] values; any other text is
    rejected. *)
Definition json_table : list (pystr * pyval) :=
  [(u8 "[]", PList []);
   (u8 "42", PInt 42);
   (u8 "null", PNone);
   (u8 "{}", PDict []);
   (lit "{`actions`: [{`task`: `ship`, `owner`: `Ann`, `deadline`: ``}], `decisions`: [`go`], `owners`: [{`person`: `Ann`, `responsibility`: `release`}], `risks`: []}",
    PDict sample_dict)].

Definition table_loads (s : pystr) : exn + pyval :=
  match assoc s json_table with
  | Some v => inr v
  | None => inl JSONDecodeError
  end.

(** A Gemini response object whose [text] is [t]. *)
Definition text_response (t : string) : pyval :=
  PObj (u8 "GenerateContentResponse") [(u8 "text", inr (PStr (lit t)))].

(** A response whose [text] getter raises and whose first part holds [t]. *)
Definition parts_response (t : string) : pyval :=
  PObj (u8 "GenerateContentResponse")
    [(u8 "text", inl (mkExn (u8 "ValueError") (u8 "no valid Part")));
     (u8 "candidates",
      inr (PList [PObj (u8 "Candidate")
        [(u8 "content",
          inr (PObj (u8 "Content")
            [(u8 "parts", inr (PList [PObj (u8 "Part")
               [(u8 "text", inr (PStr (lit t)))]]))]))]]))].

Definition api_error : exn := mkExn (u8 "ResourceExhausted") (u8 "429 quota exceeded").

(** Which of the four prompts a text is, by the letter after its first
    line feed. *)
Definition scripted_generate (main focused insights diarized : exn + pyval)
  (prompt : pystr) : exn + pyval :=
  match prompt with
  | _ :: 83 :: _ => main
  | _ :: 89 :: _ => focused
  | _ :: 69 :: _ => insights
  | _ => diarized
  end.

(** A runtime in which the file system, ffmpeg and Whisper succeed unless
    told otherwise, and Gemini answers each kind of prompt as scripted. *)
Definition scripted (ffmpeg : exn + unit) (main focused insights diarized : exn + pyval)
  : Runtime :=
  {| Path_suffix := posix_suffix;
     str_lower := ascii_lower;
     json_loads := table_loads;
     upload_read := fun _ _ => inr [82; 73; 70; 70];
     mkdtemp := fun _ => inr (u8 "/tmp/tmpab12");
     write_file := fun _ _ _ => inr tt;
     subprocess_run := fun _ _ => ffmpeg;
     whisper_transcribe := fun _ _ =>
       inr (PDict [(u8 "text", PStr (u8 " we ship on friday "))]);
     generate_content := fun _ prompt =>
       scripted_generate main focused insights diarized prompt |}.

Definition happy : Runtime :=
  scripted (inr tt)
    (inr (text_response "Summary."))
    (inr (text_response "Intro
  • ship friday"))
    (inr (text_response "{`actions`: [{`task`: `ship`, `owner`: `Ann`, `deadline`: ``}], `decisions`: [`go`], `owners`: [{`person`: `Ann`, `responsibility`: `release`}], `risks`: []}"))
    (inr (parts_response " Speaker 1: we ship on friday ")).

Definition mp4_upload : UploadFile := mkUpload (Some (u8 "standup.MP4")) (Some (u8 "application/octet-stream")).
Definition wav_upload : UploadFile := mkUpload (Some (u8 "standup.wav")) (Some (u8 "audio/wav")).

End Sample.

(** ** Vocabulary of the properties *)

(** A text that [strip] leaves as it is. *)
Definition stripped (s : pystr) : Prop := strip s = s.

Definition head_not_space (s : pystr) : Prop :=
  match s with
  | [] => True
  | c :: _ => isspace c = false
  end.

(** What the first [try] block hands over, its exceptions swallowed. *)
Definition direct_text (response : pyval) : option pystr :=
  match py_getattr response (u8 "text") with
  | inr (PStr t) => if nonempty t then Some (strip t) else None
  | _ => None
  end.

(** What the second [try] block returns, its exceptions swallowed. *)
Definition nested_text (response : pyval) : pystr :=
  match first_part_text response with
  | inr (PStr t) => strip t
  | _ => []
  end.

(** The second character of a prompt tells the four templates apart. *)
Definition prompt_kind (ev : event) : option N :=
  match ev with
  | EvGenerate prompt => nth_error prompt 1
  | _ => None
  end.

(** A call of Gemini with the focused-summary prompt. *)
Definition is_focused_call (ev : event) : Prop :=
  exists t f, ev = EvGenerate (focused_prompt t f).

(** [m] appends to the log, and only events satisfying [P]. *)
Definition only_emits {A : Type} (P : event -> Prop) (m : Py A) : Prop :=
  forall log, exists new, fst (m log) = log ++ new /\ Forall P new.

(** The events of the video branch: the input file is written, ffmpeg
    runs on it, Whisper reads ffmpeg's output; a failure ends the sequence
    early, and the directory is removed in every case. *)
Definition video_events (R : Runtime) (upload : UploadFile) (file_bytes : bytes) (log : list event)
  : list event :=
  match mkdtemp R log with
  | inl _ => [EvMkdtemp]
  | inr d =>
    let input_path := video_input_path R upload d in
    let cmd := ffmpeg_cmd input_path (extracted_audio_path d) in
    EvMkdtemp :: EvWrite input_path file_bytes ::
    match write_file R (log ++ [EvMkdtemp]) input_path file_bytes with
    | inl _ => [EvCleanup d]
    | inr _ =>
      EvFfmpeg cmd ::
      match subprocess_run R ((log ++ [EvMkdtemp]) ++ [EvWrite input_path file_bytes]) cmd with
      | inl _ => [EvCleanup d]
      | inr _ => [EvTranscribe (extracted_audio_path d); EvCleanup d]
      end
    end
  end.

Definition audio_events (R : Runtime) (upload : UploadFile) (file_bytes : bytes) (log : list event)
  : list event :=
  match mkdtemp R log with
  | inl _ => [EvMkdtemp]
  | inr d =>
    let input_path := audio_input_path R upload d in
    EvMkdtemp :: EvWrite input_path file_bytes ::
    match write_file R (log ++ [EvMkdtemp]) input_path file_bytes with
    | inl _ => [EvCleanup d]
    | inr _ => [EvTranscribe input_path; EvCleanup d]
    end
  end.

(** Whether every Whisper call in a trace comes after an ffmpeg run;
    [seen] tells whether ffmpeg has run already. *)
Fixpoint ffmpeg_precedes_transcribe (seen : bool) (trace : list event) : bool :=
  match trace with
  | [] => true
  | EvFfmpeg _ :: rest => ffmpeg_precedes_transcribe true rest
  | EvTranscribe _ :: rest => seen && ffmpeg_precedes_transcribe seen rest
  | _ :: rest => ffmpeg_precedes_transcribe seen rest
  end.


(** The result C4 promises, in the words of the specification: every
    non-blank line of the text, stripped and prefixed, in order. *)
Definition claimed_rebulleting (text : pystr) : pystr :=
  join NEWLINE
    (map (fun line => BULLET_SPACE ++ strip line)
         (filter (fun line => nonempty (strip line)) (splitlines text))).

(** The calls of Gemini a request plans, in order: the focused summary
    only for a focus that is not blank. *)
Definition planned_calls (transcript language focus : pystr) : list event :=
  EvGenerate (main_prompt transcript language) ::
  (if nonempty (strip focus)
   then [EvGenerate (focused_prompt transcript (strip focus))]
   else []) ++
  [EvGenerate (insights_prompt transcript); EvGenerate (diarize_prompt transcript)].

Definition is_generate (ev : event) : bool :=
  match ev with
  | EvGenerate _ => true
  | _ => false
  end.


(** The log at the moment Whisper is called, the file it is given and its
    answer, when the directory was made as [d] and the steps before
    succeeded. *)
Definition whisper_log (R : Runtime) (upload : UploadFile) (file_bytes : bytes)
           (log : list event) (d : pystr) : list event :=
  if is_video_file R (filename upload) (content_type upload)
  then ((log ++ [EvMkdtemp]) ++ [EvWrite (video_input_path R upload d) file_bytes])
         ++ [EvFfmpeg (ffmpeg_cmd (video_input_path R upload d) (extracted_audio_path d))]
  else (log ++ [EvMkdtemp]) ++ [EvWrite (audio_input_path R upload d) file_bytes].

Definition whisper_input (R : Runtime) (upload : UploadFile) (d : pystr) : pystr :=
  if is_video_file R (filename upload) (content_type upload)
  then extracted_audio_path d
  else audio_input_path R upload d.

(** The steps before the Whisper call all succeed. *)
Definition prepared (R : Runtime) (upload : UploadFile) (file_bytes : bytes)
           (log : list event) (d : pystr) : Prop :=
  mkdtemp R log = inr d /\
  (if is_video_file R (filename upload) (content_type upload)
   then write_file R (log ++ [EvMkdtemp]) (video_input_path R upload d) file_bytes = inr tt /\
        subprocess_run R
          ((log ++ [EvMkdtemp]) ++ [EvWrite (video_input_path R upload d) file_bytes])
          (ffmpeg_cmd (video_input_path R upload d) (extracted_audio_path d)) = inr tt
   else write_file R (log ++ [EvMkdtemp]) (audio_input_path R upload d) file_bytes = inr tt).







(** A text without any line boundary: one line for [splitlines]. *)
Definition no_linebreak (s : pystr) : Prop :=
  Forall (fun c => islinebreak c = false) s.

(** How the re-bulleting pass treats one stripped line: kept when it
    starts with the bullet, prefixed otherwise. *)
Definition rebulleted (line out : pystr) : Prop :=
  (startswith line BULLET = true /\ out = line) \/
  (startswith line BULLET = false /\ out = BULLET_SPACE ++ line).

(** ** Sample runs *)

(** The focused-summary answer is blank. *)
Definition blank_focus_runtime : Runtime :=
  Sample.scripted (inr tt) (inr (Sample.text_response "Summary."))
    (inr (Sample.text_response "   ")) (inr PNone) (inr PNone).

(** The insights answer wraps its JSON in prose. *)
Definition chatty_json_runtime : Runtime :=
  Sample.scripted (inr tt) (inr (Sample.text_response "Summary."))
    (inr PNone) (inr (Sample.text_response "Here is the JSON: {}")) (inr PNone).

(** The focused-summary answer is prose without bullets. *)
Definition plain_focus_runtime : Runtime :=
  Sample.scripted (inr tt) (inr (Sample.text_response "Summary."))
    (inr (Sample.text_response "Here are the points:

  ship on friday
Ann owns the release")) (inr PNone) (inr PNone).

(** Diarization, the last of the four, fails after the other three
    returned. *)
Definition diarization_down : Runtime :=
  Sample.scripted (inr tt)
    (inr (Sample.text_response "Summary."))
    (inr (Sample.text_response "• ship friday"))
    (inr (Sample.text_response "{}"))
    (inl Sample.api_error).


(** The focused-summary answer of [Sample.happy]: prose, then an indented
    bullet. *)
Definition indented_bullet_text : pystr := Eval vm_compute in u8 "Intro
  • ship friday".

(** The upload cannot be read. *)
Definition unreadable : Runtime :=
  {| Path_suffix := Sample.posix_suffix;
     str_lower := Sample.ascii_lower;
     json_loads := Sample.table_loads;
     upload_read := fun _ _ => inl (mkExn (u8 "OSError") (u8 "connection reset"));
     mkdtemp := mkdtemp Sample.happy;
     write_file := write_file Sample.happy;
     subprocess_run := subprocess_run Sample.happy;
     whisper_transcribe := whisper_transcribe Sample.happy;
     generate_content := generate_content Sample.happy |}.

(** ffmpeg exits with a non-zero status. *)
Definition ffmpeg_fails : Runtime :=
  Sample.scripted
    (inl (mkExn (u8 "CalledProcessError")
                (u8 "Command 'ffmpeg' returned non-zero exit status 1.")))
    (inr (Sample.text_response "Summary.")) (inr PNone) (inr PNone) (inr PNone).

(** Whisper answers without a text. *)
Definition silent_whisper : Runtime :=
  {| Path_suffix := Sample.posix_suffix;
     str_lower := Sample.ascii_lower;
     json_loads := Sample.table_loads;
     upload_read := upload_read Sample.happy;
     mkdtemp := mkdtemp Sample.happy;
     write_file := write_file Sample.happy;
     subprocess_run := subprocess_run Sample.happy;
     whisper_transcribe := fun _ _ => inr (PDict [(u8 "language", PStr (u8 "en"))]);
     generate_content := generate_content Sample.happy |}.


(** The insights call itself fails. *)
Definition insights_down : Runtime :=
  Sample.scripted (inr tt)
    (inr (Sample.text_response "Summary."))
    (inr (Sample.text_response "• ship friday"))
    (inl Sample.api_error)
    (inr (Sample.text_response "Speaker 1: we ship on friday")).

(** The focused-summary answer has a bullet first and plain lines after. *)
Definition mixed_bullets : Runtime :=
  Sample.scripted (inr tt) (inr (Sample.text_response "Summary."))
    (inr (Sample.text_response " • ship friday
and tell Ann
")) (inr PNone) (inr PNone).




(** * Properties *)

Unset Implicit Arguments.

(** ** Facts about [strip], [startswith] and [splitlines] *)

Section StringFacts.

Lemma startswith_app (p s : pystr) : startswith (p ++ s) p = true.
Proof.
  induction p as [|a p IH]; simpl; [reflexivity|].
  now rewrite N.eqb_refl, IH.
Qed.

Lemma startswith_cons_inv (c : N) (s p : pystr) (b : N) :
  startswith (c :: s) (b :: p) = true -> b = c.
Proof.
  simpl. intros H. apply andb_prop in H. now apply N.eqb_eq.
Qed.

Lemma lstrip_head (s : pystr) : head_not_space (lstrip s).
Proof.
  induction s as [|c r IH]; simpl; [exact I|].
  destruct (isspace c) eqn:E; [exact IH | exact E].
Qed.

Lemma lstrip_fix (s : pystr) : head_not_space s -> lstrip s = s.
Proof.
  destruct s as [|c r]; simpl; [reflexivity|].
  now intros ->.
Qed.

Lemma lstrip_snoc (s : pystr) (c : N) :
  isspace c = false -> exists z, lstrip (s ++ [c]) = z ++ [c].
Proof.
  intros Hc. induction s as [|a r [z IH]]; simpl.
  - rewrite Hc. now exists [].
  - destruct (isspace a).
    + now exists z.
    + now exists (a :: r).
Qed.

Lemma rstrip_cons (c : N) (s : pystr) :
  isspace c = false -> exists z, rstrip (c :: s) = c :: z.
Proof.
  intros Hc. unfold rstrip. simpl.
  destruct (lstrip_snoc (rev s) c Hc) as [z ->].
  exists (rev z). now rewrite rev_app_distr.
Qed.

Lemma strip_nil : strip [] = [].
Proof. reflexivity. Qed.

Lemma strip_head (s : pystr) : head_not_space (strip s).
Proof.
  unfold strip. pose proof (lstrip_head s) as H.
  destruct (lstrip s) as [|c r]; [exact I|].
  simpl in H. destruct (rstrip_cons c r H) as [z ->]. exact H.
Qed.

Lemma strip_last (s : pystr) : head_not_space (rev (strip s)).
Proof.
  unfold strip, rstrip. rewrite rev_involutive. apply lstrip_head.
Qed.

Lemma strip_idem (s : pystr) : stripped (strip s).
Proof.
  unfold stripped.
  assert (Hl : lstrip (strip s) = strip s) by (apply lstrip_fix, strip_head).
  unfold strip at 1. rewrite Hl. unfold rstrip.
  rewrite (lstrip_fix _ (strip_last s)). apply rev_involutive.
Qed.

(** A text that starts with a character that is not white space keeps it
    when stripped. *)
Lemma strip_cons (c : N) (s : pystr) :
  isspace c = false -> exists z, strip (c :: s) = c :: z.
Proof.
  intros Hc. unfold strip. simpl. rewrite Hc. now apply rstrip_cons.
Qed.

Lemma linebreak_is_space (c : N) : islinebreak c = true -> isspace c = true.
Proof.
  unfold islinebreak, isspace. intros H.
  repeat match type of H with
         | (_ || _)%bool = true => apply orb_prop in H; destruct H as [H|H]
         | (_ && _)%bool = true => apply andb_prop in H; destruct H as [? ?]
         end;
  repeat match goal with
         | H : (_ <=? _) = true |- _ => apply N.leb_le in H
         | H : (_ =? _) = true |- _ => apply N.eqb_eq in H
         end;
  repeat match goal with
         | |- (_ || _)%bool = true => apply orb_true_iff
         | |- _ \/ _ =>
           first [ left; apply andb_true_iff; split; apply N.leb_le; lia
                 | left; apply N.eqb_eq; lia
                 | right; apply andb_true_iff; split; apply N.leb_le; lia
                 | right; apply N.eqb_eq; lia
                 | left ]
         end.
Qed.

(** The line being read, once it holds a character, opens the result. *)
Lemma splitlines_from_cur (s cur : pystr) :
  cur <> [] -> exists tail rest, splitlines_from cur s = (cur ++ tail) :: rest.
Proof.
  revert cur. induction s as [|c r IH]; intros cur Hcur; simpl.
  - destruct cur; [congruence|]. exists [], []. now rewrite app_nil_r.
  - destruct (islinebreak c).
    + destruct r as [|d r'].
      * exists [], (splitlines_from [] []). now rewrite app_nil_r.
      * destruct ((c =? 13) && (d =? 10))%bool;
          eexists [], _; rewrite app_nil_r; reflexivity.
    + destruct (IH (cur ++ [c])) as (tail & rest & ->).
      * now destruct cur.
      * exists (c :: tail), rest. now rewrite <- app_assoc.
Qed.

(** The first line of a text that does not start with white space starts
    with the first character of the text. *)
Lemma splitlines_first (c : N) (s : pystr) :
  isspace c = false -> exists tail rest, splitlines (c :: s) = (c :: tail) :: rest.
Proof.
  intros Hc. unfold splitlines. simpl.
  destruct (islinebreak c) eqn:E.
  - apply linebreak_is_space in E. congruence.
  - apply (splitlines_from_cur s [c]). discriminate.
Qed.

End StringFacts.

(** ** [extract_text] *)

Section ExtractText.

Lemma py_strip_inr (v : pyval) (s : pystr) :
  py_strip v = inr s -> exists t, v = PStr t /\ s = strip t.
Proof.
  destruct v; simpl; try discriminate.
  - intros [= <-]. now eexists.
  - destruct (assoc (u8 "strip") attrs) as [[e|a]|]; discriminate.
Qed.

Lemma py_strip_not_str (v : pyval) :
  (forall t, v <> PStr t) -> exists e, py_strip v = inl e.
Proof.
  intros H. destruct (py_strip v) as [e|s] eqn:E; [now exists e|].
  apply py_strip_inr in E. destruct E as (t & -> & _). now destruct (H t).
Qed.

Lemma extract_text_direct_spec (response : pyval) :
  catch (extract_text_direct response) (fun _ => ret None) = inr (direct_text response).
Proof.
  unfold extract_text_direct, direct_text, py_hasattr.
  destruct (py_getattr response (u8 "text")) as [e|v] eqn:E.
  - destruct (is_AttributeError e); reflexivity.
  - cbn. destruct (truthy v) eqn:T.
    + destruct (py_strip v) as [e|s] eqn:S.
      * cbn. destruct v; try reflexivity.
        simpl in S. discriminate.
      * apply py_strip_inr in S. destruct S as (t & -> & ->).
        simpl in T. cbn. now rewrite T.
    + destruct v; try reflexivity. simpl in T. now rewrite T.
Qed.

Lemma extract_text_nested_spec (response : pyval) :
  catch (extract_text_nested response) (fun _ => ret []) = inr (nested_text response).
Proof.
  unfold extract_text_nested, nested_text.
  destruct (first_part_text response) as [e|v]; [reflexivity|].
  cbn. destruct (py_strip v) as [e|s] eqn:S.
  - destruct v; try reflexivity. simpl in S. discriminate.
  - apply py_strip_inr in S. now destruct S as (t & -> & ->).
Qed.

Lemma extract_text_spec (response : pyval) :
  extract_text response =
  inr (match direct_text response with
       | Some s => s
       | None => nested_text response
       end).
Proof.
  unfold extract_text. rewrite extract_text_direct_spec. cbn.
  destruct (direct_text response); [reflexivity|].
  apply extract_text_nested_spec.
Qed.

Lemma extract_text_stripped (response : pyval) (s : pystr) :
  extract_text response = inr s -> stripped s.
Proof.
  rewrite extract_text_spec. intros [= <-].
  unfold direct_text, nested_text.
  destruct (py_getattr response (u8 "text")) as [e|[]];
    try (destruct (first_part_text response) as [e'|[]]; apply strip_idem || reflexivity).
  destruct (nonempty s); [apply strip_idem|].
  destruct (first_part_text response) as [e'|[]]; apply strip_idem || reflexivity.
Qed.

End ExtractText.

(** C7. [extract_text] returns on every response object and never raises.
    When the [text] attribute is a non-empty string the result is that
    string stripped; otherwise it is the stripped text of the first part of
    the first candidate; and when that access fails too it is the empty
    string. *)
Theorem extract_text_total_defensive (response : pyval) :
  (exists s, extract_text response = inr s) /\
  (forall t, py_getattr response (u8 "text") = inr (PStr t) -> t <> [] ->
     extract_text response = inr (strip t)) /\
  ((forall t, py_getattr response (u8 "text") = inr (PStr t) -> t = []) ->
     (forall t, first_part_text response = inr (PStr t) ->
        extract_text response = inr (strip t)) /\
     ((forall t, first_part_text response <> inr (PStr t)) ->
        extract_text response = inr [])).
Proof.
  rewrite extract_text_spec. split; [eauto|]. split.
  - intros t Ht Hne. unfold direct_text. rewrite Ht.
    destruct t; [congruence | reflexivity].
  - intros Hdirect.
    assert (Hnone : direct_text response = None).
    { unfold direct_text.
      destruct (py_getattr response (u8 "text")) as [e|[]]; try reflexivity.
      now rewrite (Hdirect s eq_refl). }
    rewrite Hnone. unfold nested_text. split.
    + intros t ->. reflexivity.
    + intros Hfail. destruct (first_part_text response) as [e|[]]; try reflexivity.
      now destruct (Hfail s).
Qed.

(** The three cases of C7 on sample responses: a direct text, a response
    whose [text] getter raises, and a value with neither access path. *)
Lemma extract_text_total_defensive_witness :
  extract_text (Sample.text_response "  Summary. ") = inr (u8 "Summary.") /\
  extract_text (Sample.parts_response " Speaker 1: hi ") = inr (u8 "Speaker 1: hi") /\
  extract_text (PList []) = inr [].
Proof.
  split; [|split].
  - apply (proj1 (proj2 (extract_text_total_defensive (Sample.text_response "  Summary. ")))
             (u8 "  Summary. ")); [reflexivity | discriminate].
  - apply (proj1 (proj2 (proj2 (extract_text_total_defensive
                                  (Sample.parts_response " Speaker 1: hi ")))
                    ltac:(intros t; discriminate))
             (u8 " Speaker 1: hi ")).
    reflexivity.
  - apply (proj2 (proj2 (proj2 (extract_text_total_defensive (PList [])))
                    ltac:(intros t; discriminate))).
    intros t; discriminate.
Defined.

(** ** Running effectful code *)

Section PyFacts.

Context {A B : Type}.

Lemma bind_inr (m : Py A) (k : A -> Py B) (log log' : list event) (a : A) :
  m log = (log', inr a) -> bind m k log = k a log'.
Proof. intros H. cbn. now rewrite H. Qed.

Lemma bind_inl (m : Py A) (k : A -> Py B) (log log' : list event) (e : exn) :
  m log = (log', inl e) -> bind m k log = (log', inl e).
Proof. intros H. cbn. now rewrite H. Qed.

Lemma bind_inr_inv (m : Py A) (k : A -> Py B) (log log' : list event) (b : B) :
  bind m k log = (log', inr b) ->
  exists a log1, m log = (log1, inr a) /\ k a log1 = (log', inr b).
Proof.
  cbn. destruct (m log) as [log1 [e|a]]; [discriminate|].
  intros H. now exists a, log1.
Qed.

Lemma liftE_run (c : exn + A) (log : list event) : liftE c log = (log, c).
Proof. reflexivity. Qed.

Lemma perform_run (ev : event) (answer : list event -> exn + A) (log : list event) :
  perform ev answer log = (log ++ [ev], answer log).
Proof. reflexivity. Qed.

End PyFacts.

(** ** Focused summary and structured insights: fallbacks *)

Example FALLBACK_BULLET_leading_bullet_and_space :
  FALLBACK_BULLET =
  8226 :: 32 ::
  u8 "No relevant information was found in the meeting for the requested focus topics".
Proof. vm_compute. reflexivity. Qed.

Lemma summarize_focused_run (R : Runtime) (transcript focus : pystr)
      (log : list event) (response : pyval) (extracted : pystr) :
  generate_content R log (focused_prompt transcript focus) = inr response ->
  extract_text response = inr extracted ->
  summarize_focused R transcript focus log =
  (log ++ [EvGenerate (focused_prompt transcript focus)],
   inr (focused_result (strip extracted))).
Proof.
  intros Hgen Hext. unfold summarize_focused, gemini_generate_content.
  rewrite (bind_inr _ _ log _ response) by (rewrite perform_run, Hgen; reflexivity).
  rewrite (bind_inr _ _ _ _ extracted) by (rewrite liftE_run, Hext; reflexivity).
  reflexivity.
Qed.

(** C3. When the text extracted from the focused-summary response is
    empty, [summarize_focused] returns the fixed fallback bullet. *)
Theorem summarize_focused_empty_fallback (R : Runtime) (transcript focus : pystr)
        (log : list event) (response : pyval) :
  generate_content R log (focused_prompt transcript focus) = inr response ->
  extract_text response = inr [] ->
  summarize_focused R transcript focus log =
  (log ++ [EvGenerate (focused_prompt transcript focus)], inr FALLBACK_BULLET).
Proof.
  intros Hgen Hext.
  rewrite (summarize_focused_run R transcript focus log response [] Hgen Hext).
  reflexivity.
Qed.

Lemma summarize_focused_empty_fallback_witness :
  snd (summarize_focused blank_focus_runtime (u8 "we ship on friday") (u8 "risks") []) =
  inr (u8 "• No relevant information was found in the meeting for the requested focus topics").
Proof.
  rewrite (summarize_focused_empty_fallback blank_focus_runtime
             (u8 "we ship on friday") (u8 "risks") [] (Sample.text_response "   "));
    reflexivity.
Defined.

(** C5. When [json.loads] rejects the extracted text,
    [extract_structured_insights] raises nothing and returns the structure
    with four empty lists. *)
Theorem insights_parse_failure_default (R : Runtime) (transcript : pystr)
        (log : list event) (response : pyval) (extracted : pystr) (e : exn) :
  generate_content R log (insights_prompt transcript) = inr response ->
  extract_text response = inr extracted ->
  json_loads R extracted = inl e ->
  extract_structured_insights R transcript log =
  (log ++ [EvGenerate (insights_prompt transcript)],
   inr (PDict [(u8 "actions", PList []); (u8 "decisions", PList []);
               (u8 "owners", PList []); (u8 "risks", PList [])])).
Proof.
  intros Hgen Hext Hjson. unfold extract_structured_insights, gemini_generate_content.
  rewrite (bind_inr _ _ log _ response) by (rewrite perform_run, Hgen; reflexivity).
  rewrite (bind_inr _ _ _ _ extracted) by (rewrite liftE_run, Hext; reflexivity).
  cbn. rewrite Hjson. reflexivity.
Qed.

Lemma insights_parse_failure_default_witness :
  snd (extract_structured_insights chatty_json_runtime (u8 "we ship on friday") []) =
  inr EMPTY_INSIGHTS.
Proof.
  rewrite (insights_parse_failure_default chatty_json_runtime (u8 "we ship on friday") []
             (Sample.text_response "Here is the JSON: {}") (u8 "Here is the JSON: {}")
             Sample.JSONDecodeError);
    reflexivity.
Defined.

(** ** Re-bulleting *)

Section Rebullet.

Lemma append_loop_map {X Y : Type} (f : X -> Y) (l : list X) (acc : list Y) :
  fold_left (fun out x => out ++ [f x]) l acc = acc ++ map f l.
Proof.
  revert acc. induction l as [|x l IH]; intros acc; simpl.
  - now rewrite app_nil_r.
  - rewrite IH, <- app_assoc. reflexivity.
Qed.

Lemma bullet_loop_map (lines : list pystr) : bullet_loop lines = map bullet_line lines.
Proof. unfold bullet_loop. now rewrite append_loop_map. Qed.

Lemma bullet_line_kept (line : pystr) :
  startswith line BULLET = true -> bullet_line line = line.
Proof. unfold bullet_line. now intros ->. Qed.

Lemma bullet_line_prefixed (line : pystr) :
  startswith line BULLET = false -> bullet_line line = BULLET_SPACE ++ line.
Proof. unfold bullet_line. now intros ->. Qed.

Lemma bullet_line_starts (line : pystr) : startswith (bullet_line line) BULLET = true.
Proof.
  unfold bullet_line. destruct (startswith line BULLET) eqn:E; simpl; [exact E|].
  reflexivity.
Qed.

Lemma bullet_line_idem (line : pystr) : bullet_line (bullet_line line) = bullet_line line.
Proof. apply bullet_line_kept, bullet_line_starts. Qed.

Lemma rebullet_lines (text : pystr) :
  let lines := map strip (filter (fun line => nonempty (strip line)) (splitlines text)) in
  rebullet text =
  match lines with
  | [] => FALLBACK_BULLET
  | _ :: _ => join NEWLINE (map bullet_line lines)
  end.
Proof. unfold rebullet. now rewrite bullet_loop_map. Qed.

Lemma rebullet_some_line (text : pystr) :
  map strip (filter (fun line => nonempty (strip line)) (splitlines text)) <> [] ->
  rebullet text =
  join NEWLINE
    (map bullet_line
       (map strip (filter (fun line => nonempty (strip line)) (splitlines text)))).
Proof.
  intros H. rewrite rebullet_lines. cbv zeta.
  destruct (map strip _); [congruence | reflexivity].
Qed.

Lemma focused_result_rebullet (text : pystr) :
  nonempty text = true ->
  startswith (lstrip text) BULLET = false ->
  focused_result text = rebullet text.
Proof. intros Hne Hstart. unfold focused_result. now rewrite Hne, Hstart. Qed.

(** A stripped, non-empty text has a first line that is not blank, so the
    fallback inside the re-bulleting block is never taken by
    [summarize_focused], whose [text] is stripped. *)
Lemma stripped_text_has_line (text : pystr) :
  stripped text -> text <> [] ->
  exists c z tail rest,
    text = c :: z /\ isspace c = false /\
    splitlines text = (c :: tail) :: rest.
Proof.
  intros Hs Hne. destruct text as [|c z]; [congruence|].
  assert (Hc : isspace c = false).
  { pose proof (strip_head (c :: z)) as H. rewrite Hs in H. exact H. }
  destruct (splitlines_first c z Hc) as (tail & rest & E).
  now exists c, z, tail, rest.
Qed.

End Rebullet.

(** ** The lines of a re-bulleted text *)

Section OutputLines.

Lemma splitlines_from_no_break (n : nat) :
  forall s cur, (List.length s <= n)%nat -> no_linebreak cur ->
  Forall no_linebreak (splitlines_from cur s).
Proof.
  assert (Hend : forall cur, no_linebreak cur ->
                 Forall no_linebreak (match cur with [] => [] | _ :: _ => [cur] end)).
  { intros cur Hcur. destruct cur; [constructor|]. constructor; [exact Hcur | constructor]. }
  induction n as [|n IH]; intros s cur Hlen Hcur.
  - destruct s; [|simpl in Hlen; lia]. now apply Hend.
  - destruct s as [|c r]; [now apply Hend|].
    simpl in Hlen. simpl. destruct (islinebreak c) eqn:Ec.
    + destruct r as [|d r'].
      * constructor; [exact Hcur | constructor].
      * simpl in Hlen.
        destruct ((c =? 13) && (d =? 10))%bool; constructor; try exact Hcur;
          apply IH; simpl; try lia; constructor.
    + apply IH; [lia|]. apply Forall_app. split; [exact Hcur|].
      constructor; [exact Ec | constructor].
Qed.

Lemma splitlines_no_break (s : pystr) : Forall no_linebreak (splitlines s).
Proof. apply (splitlines_from_no_break (List.length s)); [lia | constructor]. Qed.

Lemma Forall_lstrip (P : N -> Prop) (s : pystr) : Forall P s -> Forall P (lstrip s).
Proof.
  induction 1 as [|c r Hc Hr IH]; simpl; [constructor|].
  destruct (isspace c); [exact IH | now constructor].
Qed.

Lemma Forall_strip (P : N -> Prop) (s : pystr) : Forall P s -> Forall P (strip s).
Proof.
  intros H. unfold strip, rstrip.
  apply Forall_rev, Forall_lstrip, Forall_rev, Forall_lstrip, H.
Qed.

Lemma bullet_line_no_break (line : pystr) :
  no_linebreak line -> no_linebreak (bullet_line line).
Proof.
  intros H. unfold bullet_line. destruct (startswith line BULLET); simpl; [exact H|].
  constructor; [reflexivity|]. constructor; [reflexivity | exact H].
Qed.

Lemma bullet_line_rebulleted (line : pystr) : rebulleted line (bullet_line line).
Proof.
  unfold rebulleted, bullet_line.
  destruct (startswith line BULLET); simpl; [now left | now right].
Qed.

(** A text without line boundaries is read into the current line. *)
Lemma splitlines_from_app (l s cur : pystr) :
  no_linebreak l -> splitlines_from cur (l ++ s) = splitlines_from (cur ++ l) s.
Proof.
  intros H. revert cur. induction H as [|c l Hc Hl IH]; intros cur.
  - now rewrite app_nil_r.
  - simpl. rewrite Hc, IH, <- app_assoc. reflexivity.
Qed.

(** A line feed closes the current line. *)
Lemma splitlines_from_newline (cur s : pystr) :
  splitlines_from cur (NEWLINE ++ s) = cur :: splitlines_from [] s.
Proof. destruct s; reflexivity. Qed.

(** Joining lines with line feeds and splitting again gives the lines
    back, when none is empty and none holds a line boundary. *)
Lemma splitlines_join (ls : list pystr) :
  Forall (fun l => l <> [] /\ no_linebreak l) ls ->
  splitlines (join NEWLINE ls) = ls.
Proof.
  induction 1 as [|l rest [Hne Hnb] Hrest IH]; [reflexivity|].
  unfold splitlines in *. destruct rest as [|x rest'].
  - pose proof (splitlines_from_app l [] [] Hnb) as E. rewrite app_nil_r in E.
    simpl. rewrite E. simpl. destruct l; [congruence | reflexivity].
  - change (join NEWLINE (l :: x :: rest'))
      with (l ++ NEWLINE ++ join NEWLINE (x :: rest')).
    rewrite splitlines_from_app by exact Hnb.
    rewrite splitlines_from_newline, IH. reflexivity.
Qed.

(** The run of [summarize_focused] through the re-bulleting block. *)
Lemma summarize_focused_rebullet_run
      (R : Runtime) (transcript focus : pystr) (log : list event)
      (response : pyval) (text : pystr) :
  generate_content R log (focused_prompt transcript focus) = inr response ->
  extract_text response = inr text ->
  text <> [] ->
  startswith (lstrip text) BULLET = false ->
  map strip (filter (fun line => nonempty (strip line)) (splitlines text)) <> [] /\
  summarize_focused R transcript focus log =
    (log ++ [EvGenerate (focused_prompt transcript focus)],
     inr (join NEWLINE
            (map bullet_line
               (map strip (filter (fun line => nonempty (strip line))
                                  (splitlines text)))))) /\
  splitlines
    (join NEWLINE
       (map bullet_line
          (map strip (filter (fun line => nonempty (strip line)) (splitlines text))))) =
  map bullet_line
    (map strip (filter (fun line => nonempty (strip line)) (splitlines text))).
Proof.
  intros Hgen Hext Hne Hstart.
  pose proof (extract_text_stripped response text Hext) as Hs.
  destruct (stripped_text_has_line text Hs Hne) as (c & z & tail & rest & Et & Hc & El).
  destruct (strip_cons c tail Hc) as [z' Ez'].
  assert (Hlines : map strip (filter (fun line => nonempty (strip line))
                                     (splitlines text)) <> []).
  { rewrite El. simpl. rewrite Ez'. discriminate. }
  assert (Hnonempty : nonempty text = true) by now rewrite Et.
  split; [exact Hlines|]. split.
  - rewrite (summarize_focused_run R transcript focus log response text Hgen Hext), Hs.
    now rewrite (focused_result_rebullet text Hnonempty Hstart), rebullet_some_line.
  - apply splitlines_join. apply Forall_forall. intros out Hin.
    apply in_map_iff in Hin. destruct Hin as (line & <- & Hin).
    apply in_map_iff in Hin. destruct Hin as (raw & <- & Hin).
    apply filter_In in Hin. destruct Hin as [Hin _]. split.
    + pose proof (bullet_line_starts (strip raw)) as Hb.
      destruct (bullet_line (strip raw)); [discriminate Hb | discriminate].
    + apply bullet_line_no_break, Forall_strip.
      pose proof (splitlines_no_break text) as Hall.
      rewrite Forall_forall in Hall. now apply Hall.
Qed.

End OutputLines.

(** C10. When the extracted text is not empty and does not start with the
    bullet once left-stripped, it has a non-blank line, so the fallback
    inside the re-bulleting block is not taken, and [summarize_focused]
    returns lines joined by line feeds that are, one for one and in order,
    the stripped non-blank lines of the text: a line that already starts
    with the bullet as it is, any other line with the bullet and a space
    in front.  No line gets a second prefix. *)
Theorem summarize_focused_no_double_prefix
        (R : Runtime) (transcript focus : pystr) (log : list event)
        (response : pyval) (text : pystr) :
  generate_content R log (focused_prompt transcript focus) = inr response ->
  extract_text response = inr text ->
  text <> [] ->
  startswith (lstrip text) BULLET = false ->
  map strip (filter (fun line => nonempty (strip line)) (splitlines text)) <> [] /\
  exists out,
    summarize_focused R transcript focus log =
      (log ++ [EvGenerate (focused_prompt transcript focus)], inr (join NEWLINE out)) /\
    splitlines (join NEWLINE out) = out /\
    Forall2 rebulleted
      (map strip (filter (fun line => nonempty (strip line)) (splitlines text))) out /\
    Forall (fun o => startswith o (BULLET_SPACE ++ BULLET) = true ->
                     exists line, In line (splitlines text) /\ strip line = o) out.
Proof.
  intros Hgen Hext Hne Hstart.
  destruct (summarize_focused_rebullet_run R transcript focus log response text
              Hgen Hext Hne Hstart) as (Hlines & Hrun & Hsplit).
  split; [exact Hlines|].
  eexists. split; [exact Hrun|]. split; [exact Hsplit|]. split.
  - generalize (map strip (filter (fun line => nonempty (strip line)) (splitlines text))).
    induction l as [|line l IH]; simpl; constructor; [apply bullet_line_rebulleted | exact IH].
  - apply Forall_forall. intros o Hin Hdouble.
    apply in_map_iff in Hin. destruct Hin as (line & <- & Hin).
    apply in_map_iff in Hin. destruct Hin as (raw & <- & Hin).
    apply filter_In in Hin. destruct Hin as [Hin _].
    exists raw. split; [exact Hin|].
    unfold bullet_line in *. destruct (startswith (strip raw) BULLET) eqn:Es; [reflexivity|].
    simpl negb in Hdouble. cbv iota in Hdouble.
    change (BULLET_SPACE ++ strip raw) with (8226 :: 32 :: strip raw) in Hdouble.
    change (BULLET_SPACE ++ BULLET) with (8226 :: 32 :: BULLET) in Hdouble.
    simpl in Hdouble. simpl in Es. congruence.
Qed.

Lemma summarize_focused_no_double_prefix_witness :
  snd (summarize_focused Sample.happy (u8 "t") (u8 "risks") []) = inr (u8 "• Intro
• ship friday").
Proof.
  destruct (summarize_focused_no_double_prefix Sample.happy (u8 "t") (u8 "risks") []
              (Sample.text_response "Intro
  • ship friday") indented_bullet_text eq_refl eq_refl
              ltac:(discriminate) eq_refl) as (_ & out & Hrun & _ & Hlines & _).
  rewrite Hrun. simpl snd. f_equal. f_equal.
  vm_compute in Hlines.
  inversion Hlines as [|l1 o1 ls1 os1 H1 Hrest]; subst.
  inversion Hrest as [|l2 o2 ls2 os2 H2 Hnil]; subst.
  inversion Hnil; subst.
  destruct H1 as [[H1 _]|[_ ->]]; [discriminate H1|].
  destruct H2 as [[_ ->]|[H2 _]]; [|discriminate H2].
  reflexivity.
Defined.

(** C4, as stated, fails on an indented bullet: no line of the text starts
    with the bullet, yet the second line, whose stripped form does, is
    emitted without a second prefix. *)
Lemma summarize_focused_indented_bullet_counterexample :
  generate_content Sample.happy [] (focused_prompt (u8 "t") (u8 "risks")) =
    inr (Sample.text_response "Intro
  • ship friday") /\
  extract_text (Sample.text_response "Intro
  • ship friday") = inr indented_bullet_text /\
  indented_bullet_text <> [] /\
  (forall line, In line (splitlines indented_bullet_text) ->
     startswith line BULLET = false) /\
  snd (summarize_focused Sample.happy (u8 "t") (u8 "risks") []) = inr (u8 "• Intro
• ship friday") /\
  claimed_rebulleting indented_bullet_text = u8 "• Intro
• • ship friday" /\
  snd (summarize_focused Sample.happy (u8 "t") (u8 "risks") []) <>
    inr (claimed_rebulleting indented_bullet_text).
Proof.
  repeat split; try (vm_compute; reflexivity); try (vm_compute; discriminate).
  intros line H. vm_compute in H. destruct H as [<-|[<-|[]]]; reflexivity.
Qed.

(** C4, amended. When the extracted text is non-empty and no line of it,
    once stripped, starts with the bullet, [summarize_focused] returns its
    non-blank lines, each stripped and prefixed with the bullet and a
    space, joined by line feeds in their order. *)
Theorem summarize_focused_rebullets_plain_lines (R : Runtime) (transcript focus : pystr)
        (log : list event) (response : pyval) (text : pystr) :
  generate_content R log (focused_prompt transcript focus) = inr response ->
  extract_text response = inr text ->
  text <> [] ->
  (forall line, In line (splitlines text) -> startswith (strip line) BULLET = false) ->
  summarize_focused R transcript focus log =
  (log ++ [EvGenerate (focused_prompt transcript focus)],
   inr (join NEWLINE
          (map (fun line => BULLET_SPACE ++ strip line)
               (filter (fun line => nonempty (strip line)) (splitlines text))))).
Proof.
  intros Hgen Hext Hne Hplain.
  rewrite (summarize_focused_run R transcript focus log response text Hgen Hext).
  pose proof (extract_text_stripped response text Hext) as Hs. rewrite Hs.
  destruct (stripped_text_has_line text Hs Hne) as (c & z & tail & rest & Et & Hc & El).
  destruct (strip_cons c tail Hc) as [z' Ez'].
  assert (Hfirst : startswith (strip (c :: tail)) BULLET = false).
  { apply Hplain. rewrite El. now left. }
  assert (Hstart : startswith (lstrip text) BULLET = false).
  { rewrite lstrip_fix by (rewrite Et; exact Hc).
    rewrite Et. rewrite Ez' in Hfirst. exact Hfirst. }
  assert (Hnonempty : nonempty text = true) by now rewrite Et.
  rewrite (focused_result_rebullet text Hnonempty Hstart), rebullet_some_line.
  - rewrite map_map. do 3 f_equal. apply map_ext_in.
    intros line Hin. apply filter_In in Hin. destruct Hin as [Hin _].
    apply bullet_line_prefixed, Hplain, Hin.
  - rewrite El. simpl. rewrite Ez'. discriminate.
Qed.

Lemma summarize_focused_rebullets_plain_lines_witness :
  snd (summarize_focused plain_focus_runtime (u8 "we ship on friday") (u8 "deadlines") []) =
  inr (u8 "• Here are the points:
• ship on friday
• Ann owns the release").
Proof.
  rewrite (summarize_focused_rebullets_plain_lines plain_focus_runtime
             (u8 "we ship on friday") (u8 "deadlines") []
             (Sample.text_response "Here are the points:

  ship on friday
Ann owns the release")
             (u8 "Here are the points:

  ship on friday
Ann owns the release")).
  - vm_compute. reflexivity.
  - reflexivity.
  - reflexivity.
  - discriminate.
  - intros line H. vm_compute in H.
    destruct H as [<-|[<-|[<-|[<-|[]]]]]; reflexivity.
Defined.

(** ** Event traces *)

Section Traces.

Context {A B : Type} (P : event -> Prop).

Lemma only_emits_ret (a : A) : only_emits P (ret a : Py A).
Proof. intros log. exists []. now rewrite app_nil_r. Qed.

Lemma only_emits_liftE (c : exn + A) : only_emits P (liftE c).
Proof. intros log. exists []. now rewrite app_nil_r. Qed.

Lemma only_emits_perform (ev : event) (answer : list event -> exn + A) :
  P ev -> only_emits P (perform ev answer).
Proof. intros H log. exists [ev]. split; [reflexivity | now constructor]. Qed.

Lemma only_emits_bind (m : Py A) (k : A -> Py B) :
  only_emits P m -> (forall a, only_emits P (k a)) -> only_emits P (bind m k).
Proof.
  intros Hm Hk log. destruct (Hm log) as (n1 & E1 & F1). cbn.
  destruct (m log) as [log1 [e|a]]; simpl in E1; subst log1.
  - now exists n1.
  - destruct (Hk a (log ++ n1)) as (n2 & E2 & F2).
    exists (n1 ++ n2). rewrite E2, app_assoc. split; [reflexivity|].
    apply Forall_app. now split.
Qed.

Lemma only_emits_catch (m : Py A) (h : exn -> Py A) :
  only_emits P m -> (forall e, only_emits P (h e)) -> only_emits P (catch m h).
Proof.
  intros Hm Hh log. destruct (Hm log) as (n1 & E1 & F1). cbn.
  destruct (m log) as [log1 [e|a]]; simpl in E1; subst log1.
  - destruct (Hh e (log ++ n1)) as (n2 & E2 & F2).
    exists (n1 ++ n2). rewrite E2, app_assoc. split; [reflexivity|].
    apply Forall_app. now split.
  - now exists n1.
Qed.

Lemma only_emits_with_TemporaryDirectory (R : Runtime) (body : pystr -> Py A) :
  P EvMkdtemp -> (forall d, P (EvCleanup d)) -> (forall d, only_emits P (body d)) ->
  only_emits P (with_TemporaryDirectory R body).
Proof.
  intros Hmk Hrm Hbody log. unfold with_TemporaryDirectory.
  destruct (mkdtemp R log) as [e|d].
  - exists [EvMkdtemp]. split; [reflexivity | now constructor].
  - destruct (Hbody d (log ++ [EvMkdtemp])) as (n & E & F).
    destruct (body d (log ++ [EvMkdtemp])) as [log' r]. simpl in E. subst log'.
    exists (EvMkdtemp :: n ++ [EvCleanup d]). simpl. split.
    + now rewrite <- !app_assoc.
    + constructor; [exact Hmk|]. apply Forall_app. split; [exact F|]. now constructor.
Qed.

(** Code after which the log is what it was. *)
Lemma bind_silent_fst (m : Py A) (k : A -> Py B) (log : list event) :
  (forall a l, fst (k a l) = l) -> fst (bind m k log) = fst (m log).
Proof.
  intros Hk. cbn. destruct (m log) as [log1 [e|a]]; [reflexivity|]. apply Hk.
Qed.

End Traces.

Lemma only_emits_weaken {A : Type} (P Q : event -> Prop) (m : Py A) :
  (forall ev, P ev -> Q ev) -> only_emits P m -> only_emits Q m.
Proof.
  intros H Hm log. destruct (Hm log) as (n & E & F). exists n. split; [exact E|].
  revert F. apply Forall_impl. exact H.
Qed.

(** ** Media classification and audio extraction *)

Section MediaNormalizer.

Variable R : Runtime.

Lemma pystr_eqb_eq (a b : pystr) : pystr_eqb a b = true <-> a = b.
Proof.
  unfold pystr_eqb. destruct (list_eq_dec N.eq_dec a b); split; congruence.
Qed.

Lemma nonempty_true (s : pystr) : nonempty s = true <-> s <> [].
Proof. destruct s; simpl; split; congruence. Qed.

Lemma is_video_file_iff (fn ct : option pystr) :
  is_video_file R fn ct = true <->
  (exists f, fn = Some f /\ f <> [] /\ In (str_lower R (Path_suffix R f)) video_exts) \/
  (exists c, ct = Some c /\ startswith c (u8 "video/") = true).
Proof.
  unfold is_video_file. split.
  - destruct fn as [f|].
    + destruct (nonempty f && _)%bool eqn:E.
      * intros _. left. apply andb_prop in E. destruct E as [E1 E2].
        apply existsb_exists in E2. destruct E2 as (x & Hin & Heq).
        apply pystr_eqb_eq in Heq. subst x.
        exists f. repeat split; [now apply nonempty_true | exact Hin].
      * destruct ct as [c|]; [|discriminate].
        destruct (nonempty c && _)%bool eqn:E'; [|discriminate].
        intros _. right. exists c. apply andb_prop in E'. now split.
    + destruct ct as [c|]; [|discriminate].
      destruct (nonempty c && _)%bool eqn:E'; [|discriminate].
      intros _. right. exists c. apply andb_prop in E'. now split.
  - intros [(f & -> & Hne & Hin) | (c & -> & Hsw)].
    + apply nonempty_true in Hne.
      assert (Hex : existsb (pystr_eqb (str_lower R (Path_suffix R f))) video_exts = true).
      { apply existsb_exists. exists (str_lower R (Path_suffix R f)).
        split; [exact Hin | now apply pystr_eqb_eq]. }
      now rewrite Hne, Hex.
    + rewrite Hsw. destruct c; [discriminate|]. simpl.
      now destruct (match fn with Some _ => _ | None => _ end).
Qed.

(** The transcription result is read after the temporary directory is gone
    and calls nothing outside. *)
Lemma transcribe_fst (upload : UploadFile) (file_bytes : bytes) (log : list event)
      (body : pystr -> Py pyval) :
  fst ((result <- with_TemporaryDirectory R body ;;
        t <- liftE (py_get result (u8 "text") (PStr [])) ;;
        liftE (py_strip t)) log) =
  fst (with_TemporaryDirectory R body log).
Proof.
  apply bind_silent_fst. intros a l. cbn.
  now destruct (py_get a (u8 "text") (PStr [])).
Qed.

Lemma transcribe_events (upload : UploadFile) (file_bytes : bytes) (log : list event) :
  fst (transcribe_with_whisper_local R upload file_bytes log) =
  log ++ (if is_video_file R (filename upload) (content_type upload)
          then video_events R upload file_bytes log
          else audio_events R upload file_bytes log).
Proof.
  unfold transcribe_with_whisper_local. rewrite transcribe_fst; [|exact upload|exact file_bytes].
  unfold with_TemporaryDirectory, video_events, audio_events.
  destruct (is_video_file R (filename upload) (content_type upload));
    destruct (mkdtemp R log) as [e|d]; try reflexivity.
  - unfold write_bytes, extract_audio_with_ffmpeg, whisper_model_transcribe, perform. cbn.
    destruct (write_file R _ _ _) as [e|[]]; cbn.
    + now rewrite <- !app_assoc.
    + destruct (subprocess_run R _ _) as [e|[]]; cbn; now rewrite <- !app_assoc.
  - unfold write_bytes, whisper_model_transcribe, perform. cbn.
    destruct (write_file R _ _ _) as [e|[]]; cbn; now rewrite <- !app_assoc.
Qed.

Lemma ffmpeg_precedes_transcribe_sound (trace : list event) :
  forall seen, ffmpeg_precedes_transcribe seen trace = true ->
  forall pre path post, trace = pre ++ EvTranscribe path :: post ->
  seen = true \/ exists cmd, In (EvFfmpeg cmd) pre.
Proof.
  induction trace as [|ev rest IH]; intros seen H pre path post E.
  - now destruct pre.
  - destruct pre as [|ev' pre'].
    + injection E as -> _. simpl in H. apply andb_prop in H. now left.
    + injection E as <- E'.
      destruct ev; simpl in H;
        try (destruct (IH seen H pre' path post E') as [?|[cmd' ?]];
             [now left | right; exists cmd'; now right]).
      * right. exists cmd. now left.
      * apply andb_prop in H. destruct H as [_ H].
        destruct (IH seen H pre' path post E') as [?|[cmd' ?]];
          [now left | right; exists cmd'; now right].
Qed.

Lemma video_events_ordered (upload : UploadFile) (file_bytes : bytes) (log : list event) :
  ffmpeg_precedes_transcribe false (video_events R upload file_bytes log) = true.
Proof.
  unfold video_events. destruct (mkdtemp R log) as [e|d]; [reflexivity|].
  cbv zeta. destruct (write_file R _ _ _); [reflexivity|].
  destruct (subprocess_run R _ _); reflexivity.
Qed.

Lemma audio_events_no_ffmpeg (upload : UploadFile) (file_bytes : bytes) (log : list event)
      (cmd : list pystr) :
  ~ In (EvFfmpeg cmd) (audio_events R upload file_bytes log).
Proof.
  unfold audio_events. destruct (mkdtemp R log) as [e|d].
  - intros [H|[]]. discriminate.
  - cbv zeta. destruct (write_file R _ _ _); simpl; intuition discriminate.
Qed.

End MediaNormalizer.

(** C1. [is_video_file] answers true exactly when the lowercased suffix of
    a non-empty file name is one of the five video extensions or the
    content type starts with "video/".  For a video, every call of Whisper
    in [transcribe_with_whisper_local] comes after a run of ffmpeg, ffmpeg
    runs as soon as the input file is written, and when ffmpeg succeeds
    Whisper reads the file ffmpeg wrote; for any other input ffmpeg is not
    run at all. *)
Theorem video_classified_and_extracted_first
        (R : Runtime) (upload : UploadFile) (file_bytes : bytes) (log : list event) :
  (is_video_file R (filename upload) (content_type upload) = true <->
     (exists f, filename upload = Some f /\ f <> [] /\
                In (str_lower R (Path_suffix R f)) video_exts) \/
     (exists c, content_type upload = Some c /\ startswith c (u8 "video/") = true)) /\
  exists new,
    fst (transcribe_with_whisper_local R upload file_bytes log) = log ++ new /\
    (is_video_file R (filename upload) (content_type upload) = true ->
       (forall pre path post, new = pre ++ EvTranscribe path :: post ->
          exists cmd, In (EvFfmpeg cmd) pre) /\
       (forall d,
          mkdtemp R log = inr d ->
          write_file R (log ++ [EvMkdtemp]) (video_input_path R upload d) file_bytes = inr tt ->
          In (EvFfmpeg (ffmpeg_cmd (video_input_path R upload d) (extracted_audio_path d)))
             new /\
          (subprocess_run R
             ((log ++ [EvMkdtemp]) ++ [EvWrite (video_input_path R upload d) file_bytes])
             (ffmpeg_cmd (video_input_path R upload d) (extracted_audio_path d)) = inr tt ->
           new = [EvMkdtemp;
                  EvWrite (video_input_path R upload d) file_bytes;
                  EvFfmpeg (ffmpeg_cmd (video_input_path R upload d) (extracted_audio_path d));
                  EvTranscribe (extracted_audio_path d);
                  EvCleanup d]))) /\
    (is_video_file R (filename upload) (content_type upload) = false ->
       forall cmd, ~ In (EvFfmpeg cmd) new).
Proof.
  split; [apply is_video_file_iff|].
  eexists. split; [apply transcribe_events|].
  split; intros Hv; rewrite Hv.
  - split.
    + intros pre path post E.
      destruct (ffmpeg_precedes_transcribe_sound _ false
                  (video_events_ordered R upload file_bytes log) pre path post E)
        as [?|?]; [discriminate | assumption].
    + intros d Hmk Hwr. unfold video_events. rewrite Hmk. cbv zeta. rewrite Hwr. split.
      * right. right. now left.
      * now intros ->.
  - intros cmd. apply audio_events_no_ffmpeg.
Qed.

Lemma video_classified_and_extracted_first_witness :
  is_video_file Sample.happy (Some (u8 "standup.MP4")) (Some (u8 "application/octet-stream"))
    = true /\
  fst (transcribe_with_whisper_local Sample.happy Sample.mp4_upload [82; 73; 70; 70] []) =
    [EvMkdtemp;
     EvWrite (u8 "/tmp/tmpab12/input.MP4") [82; 73; 70; 70];
     EvFfmpeg [u8 "ffmpeg"; u8 "-y"; u8 "-i"; u8 "/tmp/tmpab12/input.MP4"; u8 "-vn";
               u8 "-ac"; u8 "1"; u8 "-ar"; u8 "16000"; u8 "/tmp/tmpab12/audio.wav"];
     EvTranscribe (u8 "/tmp/tmpab12/audio.wav");
     EvCleanup (u8 "/tmp/tmpab12")] /\
  forall cmd,
    ~ In (EvFfmpeg cmd)
         (fst (transcribe_with_whisper_local Sample.happy Sample.wav_upload [82; 73; 70; 70] [])).
Proof.
  destruct (video_classified_and_extracted_first
              Sample.happy Sample.mp4_upload [82; 73; 70; 70] [])
    as (Hiff & new & E & Hvideo & _).
  destruct (video_classified_and_extracted_first
              Sample.happy Sample.wav_upload [82; 73; 70; 70] [])
    as (_ & new' & E' & _ & Haudio).
  split; [|split].
  - apply Hiff. left. exists (u8 "standup.MP4").
    split; [reflexivity|]. split; [discriminate|].
    vm_compute. left. reflexivity.
  - rewrite E.
    destruct (Hvideo ltac:(vm_compute; reflexivity)) as (_ & Hrun).
    destruct (Hrun (u8 "/tmp/tmpab12") eq_refl eq_refl) as (_ & Hall).
    rewrite (Hall eq_refl). vm_compute. reflexivity.
  - rewrite E'. apply Haudio. vm_compute. reflexivity.
Defined.

(** ** The endpoint *)

Section Endpoint.

Variable R : Runtime.

(** Once the upload is read and transcribed, the response is decided by
    the third [try] block. *)
Lemma process_meeting_after_transcription
      (audio : UploadFile) (language focus : pystr)
      (log log1 log2 : list event) (file_bytes : bytes) (transcript : pystr) :
  audio_read R audio log = (log1, inr file_bytes) ->
  transcribe_with_whisper_local R audio file_bytes log1 = (log2, inr transcript) ->
  process_meeting R audio language focus log =
  match summaries_and_insights R transcript language focus log2 with
  | (log3, inl e) => (log3, JSONResponse 500 (error_body (u8 "Processing failed: ") e))
  | (log3, inr body) => (log3, fastapi_response body)
  end.
Proof. intros H1 H2. unfold process_meeting. now rewrite H1, H2. Qed.

(** The four prompts differ in their second character. *)
Lemma main_prompt_kind (t l : pystr) : nth_error (main_prompt t l) 1 = Some 83.
Proof. reflexivity. Qed.

Lemma focused_prompt_kind (t f : pystr) : nth_error (focused_prompt t f) 1 = Some 89.
Proof. reflexivity. Qed.

Lemma insights_prompt_kind (t : pystr) : nth_error (insights_prompt t) 1 = Some 69.
Proof. reflexivity. Qed.

Lemma diarize_prompt_kind (t : pystr) : nth_error (diarize_prompt t) 1 = Some 82.
Proof. reflexivity. Qed.

Lemma main_not_focused (t l : pystr) : ~ is_focused_call (EvGenerate (main_prompt t l)).
Proof.
  intros (t' & f & E). apply (f_equal prompt_kind) in E. unfold prompt_kind in E.
  rewrite main_prompt_kind, focused_prompt_kind in E. discriminate.
Qed.

Lemma insights_not_focused (t : pystr) : ~ is_focused_call (EvGenerate (insights_prompt t)).
Proof.
  intros (t' & f & E). apply (f_equal prompt_kind) in E. unfold prompt_kind in E.
  rewrite insights_prompt_kind, focused_prompt_kind in E. discriminate.
Qed.

Lemma diarize_not_focused (t : pystr) : ~ is_focused_call (EvGenerate (diarize_prompt t)).
Proof.
  intros (t' & f & E). apply (f_equal prompt_kind) in E. unfold prompt_kind in E.
  rewrite diarize_prompt_kind, focused_prompt_kind in E. discriminate.
Qed.

Ltac not_focused :=
  match goal with
  | |- ~ is_focused_call (EvGenerate (main_prompt _ _)) => apply main_not_focused
  | |- ~ is_focused_call (EvGenerate (insights_prompt _)) => apply insights_not_focused
  | |- ~ is_focused_call (EvGenerate (diarize_prompt _)) => apply diarize_not_focused
  | |- ~ is_focused_call _ => intros (? & ? & ?); discriminate
  end.

Ltac emits :=
  repeat first
    [ apply only_emits_ret
    | apply only_emits_liftE
    | apply only_emits_perform; not_focused
    | apply only_emits_bind; [|intros ?]
    | apply only_emits_catch; [|intros ?]
    | apply only_emits_with_TemporaryDirectory; [not_focused | intros ?; not_focused | intros ?]
    | match goal with
      | |- only_emits _ (if ?b then _ else _) => destruct b
      end ].

Lemma audio_read_quiet (audio : UploadFile) :
  only_emits (fun ev => ~ is_focused_call ev) (audio_read R audio).
Proof. unfold audio_read. emits. Qed.

Lemma transcribe_quiet (upload : UploadFile) (file_bytes : bytes) :
  only_emits (fun ev => ~ is_focused_call ev)
             (transcribe_with_whisper_local R upload file_bytes).
Proof.
  unfold transcribe_with_whisper_local, write_bytes, extract_audio_with_ffmpeg,
    whisper_model_transcribe.
  emits.
Qed.

Lemma summaries_quiet (transcript language focus : pystr) :
  strip focus = [] ->
  only_emits (fun ev => ~ is_focused_call ev)
             (summaries_and_insights R transcript language focus).
Proof.
  intros Hf.
  unfold summaries_and_insights, focused_summary_step, summarize_main,
    extract_structured_insights, generate_diarized_transcript, gemini_generate_content.
  rewrite Hf. simpl nonempty. cbv iota.
  emits.
Qed.

End Endpoint.

Section Responses.

Variable R : Runtime.

Lemma liftE_inr_inv {A : Type} (c : exn + A) (log log' : list event) (a : A) :
  liftE c log = (log', inr a) -> c = inr a /\ log' = log.
Proof. unfold liftE. now intros [= -> ->]. Qed.

Lemma focused_summary_step_skipped (transcript focus : pystr) (log : list event) :
  strip focus = [] -> focused_summary_step R transcript focus log = (log, inr []).
Proof. intros H. unfold focused_summary_step. now rewrite H. Qed.

(** The body of a successful response, read back from the run that
    produced it. *)
Lemma summaries_and_insights_inr_inv
      (transcript language focus : pystr) (log log' : list event) (body : pyval) :
  summaries_and_insights R transcript language focus log = (log', inr body) ->
  exists summary focused structured diarized actions decisions owners risks la lb lc,
    summarize_main R transcript language log = (la, inr summary) /\
    focused_summary_step R transcript focus la = (lb, inr focused) /\
    extract_structured_insights R transcript lb = (lc, inr structured) /\
    generate_diarized_transcript R transcript lc = (log', inr diarized) /\
    py_get structured (u8 "actions") (PList []) = inr actions /\
    py_get structured (u8 "decisions") (PList []) = inr decisions /\
    py_get structured (u8 "owners") (PList []) = inr owners /\
    py_get structured (u8 "risks") (PList []) = inr risks /\
    body = PDict [(u8 "summary", PStr summary);
                  (u8 "focused_summary", PStr focused);
                  (u8 "actions", actions);
                  (u8 "decisions", decisions);
                  (u8 "owners", owners);
                  (u8 "risks", risks);
                  (u8 "transcript", PStr transcript);
                  (u8 "diarized", PStr diarized)].
Proof.
  unfold summaries_and_insights. intros H.
  apply bind_inr_inv in H. destruct H as (summary & la & H1 & H).
  apply bind_inr_inv in H. destruct H as (focused & lb & H2 & H).
  apply bind_inr_inv in H. destruct H as (structured & lc & H3 & H).
  apply bind_inr_inv in H. destruct H as (diarized & ld & H4 & H).
  apply bind_inr_inv in H. destruct H as (actions & l5 & H5 & H).
  apply bind_inr_inv in H. destruct H as (decisions & l6 & H6 & H).
  apply bind_inr_inv in H. destruct H as (owners & l7 & H7 & H).
  apply bind_inr_inv in H. destruct H as (risks & l8 & H8 & H).
  apply liftE_inr_inv in H5, H6, H7, H8.
  destruct H5 as [H5 ->], H6 as [H6 ->], H7 as [H7 ->], H8 as [H8 ->].
  injection H as <- <-.
  exists summary, focused, structured, diarized, actions, decisions, owners, risks, la, lb, lc.
  repeat split; assumption.
Qed.



(** Only a dict answers [.get]. *)
Lemma py_get_non_dict (v : pyval) (key : pystr) (default : pyval) :
  (forall d, v <> PDict d) -> exists e, py_get v key default = inl e.
Proof.
  intros H. destruct v; simpl; try (eexists; reflexivity).
  - now destruct (H d).
  - destruct (assoc (u8 "get") attrs) as [[e|a]|]; eexists; reflexivity.
Qed.

(** A dict that comes back with status 200 was rendered, and is the body. *)
Lemma fastapi_response_200 (body body' : pyval) :
  fastapi_response body = JSONResponse 200 body' ->
  body' = body /\ json_renderable body = true.
Proof.
  unfold fastapi_response, JSONResponse, PlainTextResponse.
  destruct (json_renderable body); intros H.
  - injection H as <-. now split.
  - discriminate H.
Qed.


Lemma Forall_not_focused (new : list event) :
  Forall (fun ev => ~ is_focused_call ev) new ->
  forall t f, ~ In (EvGenerate (focused_prompt t f)) new.
Proof.
  intros F t f Hin. rewrite Forall_forall in F.
  apply (F _ Hin). now exists t, f.
Qed.

End Responses.

(** C6. When [focus_prompt] strips to the empty string, no call of Gemini
    made by the request carries the focused-summary prompt, and every
    successful response has [focused_summary] equal to the empty string. *)
Theorem empty_focus_skips_focused_summary
        (R : Runtime) (audio : UploadFile) (language focus : pystr) (log : list event) :
  strip focus = [] ->
  exists new,
    fst (process_meeting R audio language focus log) = log ++ new /\
    (forall t f, ~ In (EvGenerate (focused_prompt t f)) new) /\
    (forall body,
       snd (process_meeting R audio language focus log) = JSONResponse 200 body ->
       dict_get body (u8 "focused_summary") = Some (PStr [])).
Proof.
  intros Hf. unfold process_meeting.
  destruct (audio_read_quiet R audio log) as (n1 & E1 & F1).
  destruct (audio_read R audio log) as [log1 [e|file_bytes]]; simpl in E1; subst log1.
  { exists n1. split; [reflexivity|]. split; [now apply Forall_not_focused|].
    intros body H. simpl in H. discriminate H. }
  destruct (transcribe_quiet R audio file_bytes (log ++ n1)) as (n2 & E2 & F2).
  destruct (transcribe_with_whisper_local R audio file_bytes (log ++ n1))
    as [log2 [e|transcript]]; simpl in E2; subst log2.
  { exists (n1 ++ n2). rewrite app_assoc. split; [reflexivity|].
    split; [apply Forall_not_focused, Forall_app; now split|].
    intros body H. simpl in H. discriminate H. }
  destruct (summaries_quiet R transcript language focus Hf ((log ++ n1) ++ n2))
    as (n3 & E3 & F3).
  destruct (summaries_and_insights R transcript language focus ((log ++ n1) ++ n2))
    as [log3 [e|body]] eqn:Erun; simpl in E3; subst log3.
  { exists (n1 ++ n2 ++ n3). rewrite !app_assoc. split; [reflexivity|].
    split; [apply Forall_not_focused; repeat (apply Forall_app; split); assumption|].
    intros body H. simpl in H. discriminate H. }
  exists (n1 ++ n2 ++ n3). rewrite !app_assoc. split; [reflexivity|].
  split; [apply Forall_not_focused; repeat (apply Forall_app; split); assumption|].
  intros body' H. simpl in H. apply fastapi_response_200 in H. destruct H as [-> _].
  apply summaries_and_insights_inr_inv in Erun.
  destruct Erun as (summary & focused & structured & diarized & actions & decisions
                    & owners & risks & la & lb & lc & _ & H2 & _ & _ & _ & _ & _ & _ & ->).
  rewrite (focused_summary_step_skipped R transcript focus la Hf) in H2.
  injection H2 as _ <-. reflexivity.
Qed.

Lemma empty_focus_skips_focused_summary_witness :
  status_code (snd (process_meeting Sample.happy Sample.wav_upload (u8 "French") (u8 "  ") []))
    = 200%Z /\
  dict_get (content (snd (process_meeting Sample.happy Sample.wav_upload
                            (u8 "French") (u8 "  ") [])))
           (u8 "focused_summary") = Some (PStr []) /\
  forall t f,
    ~ In (EvGenerate (focused_prompt t f))
         (fst (process_meeting Sample.happy Sample.wav_upload (u8 "French") (u8 "  ") [])).
Proof.
  destruct (empty_focus_skips_focused_summary
              Sample.happy Sample.wav_upload (u8 "French") (u8 "  ") [] eq_refl)
    as (new & E & Hnone & Hbody).
  split; [vm_compute; reflexivity|]. split.
  - apply Hbody. vm_compute. reflexivity.
  - rewrite E. exact Hnone.
Defined.

(** C2. When the upload was read and transcribed and one of the four
    operations of the third stage raises, each earlier one having
    returned, the response has status 500 and its body is the single
    entry "error" holding "Processing failed: " followed by the text of
    the exception; none of the result keys is in it. *)
Theorem processing_failure_all_or_nothing
        (R : Runtime) (audio : UploadFile) (language focus : pystr)
        (log log1 log2 log3 : list event) (file_bytes : bytes) (transcript : pystr)
        (e : exn) :
  audio_read R audio log = (log1, inr file_bytes) ->
  transcribe_with_whisper_local R audio file_bytes log1 = (log2, inr transcript) ->
  (summarize_main R transcript language log2 = (log3, inl e) \/
   exists summary la,
     summarize_main R transcript language log2 = (la, inr summary) /\
     (focused_summary_step R transcript focus la = (log3, inl e) \/
      exists focused lb,
        focused_summary_step R transcript focus la = (lb, inr focused) /\
        (extract_structured_insights R transcript lb = (log3, inl e) \/
         exists structured lc,
           extract_structured_insights R transcript lb = (lc, inr structured) /\
           generate_diarized_transcript R transcript lc = (log3, inl e)))) ->
  process_meeting R audio language focus log =
    (log3, JSONResponse 500
             (PDict [(u8 "error", PStr (u8 "Processing failed: " ++ exc_str e))])) /\
  forall key,
    In key [u8 "summary"; u8 "focused_summary"; u8 "actions"; u8 "decisions";
            u8 "owners"; u8 "risks"; u8 "transcript"; u8 "diarized"] ->
    dict_get (content (snd (process_meeting R audio language focus log))) key = None.
Proof.
  intros Hread Htr Hfail.
  assert (Hrun : summaries_and_insights R transcript language focus log2 = (log3, inl e)).
  { unfold summaries_and_insights.
    destruct Hfail as [H1 | (summary & la & H1 & Hfail)].
    { now apply bind_inl. }
    rewrite (bind_inr _ _ _ _ _ H1).
    destruct Hfail as [H2 | (focused & lb & H2 & Hfail)].
    { now apply bind_inl. }
    rewrite (bind_inr _ _ _ _ _ H2).
    destruct Hfail as [H3 | (structured & lc & H3 & H4)].
    { now apply bind_inl. }
    rewrite (bind_inr _ _ _ _ _ H3).
    now apply bind_inl. }
  rewrite (process_meeting_after_transcription R audio language focus
             log log1 log2 file_bytes transcript Hread Htr), Hrun.
  split; [reflexivity|].
  intros key Hin. simpl in Hin.
  repeat destruct Hin as [<-|Hin]; try (vm_compute; reflexivity). destruct Hin.
Qed.

Lemma processing_failure_all_or_nothing_witness :
  snd (process_meeting diarization_down Sample.wav_upload (u8 "English") (u8 "risks") []) =
  JSONResponse 500 (PDict [(u8 "error", PStr (u8 "Processing failed: 429 quota exceeded"))]).
Proof.
  pose (t := u8 "we ship on friday").
  pose (r1 := audio_read diarization_down Sample.wav_upload []).
  pose (r2 := transcribe_with_whisper_local diarization_down Sample.wav_upload [82; 73; 70; 70] (fst r1)).
  pose (r3 := summarize_main diarization_down t (u8 "English") (fst r2)).
  pose (r4 := focused_summary_step diarization_down t (u8 "risks") (fst r3)).
  pose (r5 := extract_structured_insights diarization_down t (fst r4)).
  pose (r6 := generate_diarized_transcript diarization_down t (fst r5)).
  rewrite (proj1 (processing_failure_all_or_nothing
             diarization_down Sample.wav_upload (u8 "English") (u8 "risks")
             [] (fst r1) (fst r2) (fst r6) [82; 73; 70; 70] t Sample.api_error
             ltac:(vm_compute; reflexivity) ltac:(vm_compute; reflexivity)
             ltac:(right; exists (u8 "Summary."), (fst r3);
                   split; [vm_compute; reflexivity|];
                   right; exists (u8 "• ship friday"), (fst r4);
                   split; [vm_compute; reflexivity|];
                   right; exists (PDict []), (fst r5);
                   split; vm_compute; reflexivity))).
  vm_compute. reflexivity.
Defined.







(** * Further properties of the backend *)

(** ** The focused summary is always a bullet list *)

Section FocusedShape.

Lemma startswith_app_l (s t p : pystr) :
  startswith s p = true -> startswith (s ++ t) p = true.
Proof.
  revert s. induction p as [|a p IH]; intros s H; [reflexivity|].
  destruct s as [|b s]; [discriminate|]. simpl in *.
  apply andb_prop in H. destruct H as [H1 H2]. now rewrite H1, IH.
Qed.

Lemma startswith_join (sep first : pystr) (rest : list pystr) (p : pystr) :
  startswith first p = true -> startswith (join sep (first :: rest)) p = true.
Proof.
  intros H. destruct rest as [|x rest]; [exact H|].
  change (join sep (first :: x :: rest)) with (first ++ sep ++ join sep (x :: rest)).
  now apply startswith_app_l.
Qed.

Lemma bullet_head (s : pystr) :
  startswith s BULLET = true -> exists r, s = 8226 :: r.
Proof.
  destruct s as [|c r]; [discriminate|]. intros H.
  apply startswith_cons_inv in H. subst c. now exists r.
Qed.

(** A text that starts with the bullet is returned as it is. *)
Lemma focused_result_bulleted (s : pystr) :
  startswith s BULLET = true -> focused_result s = s.
Proof.
  intros H. destruct (bullet_head s H) as [r ->]. reflexivity.
Qed.

Lemma rebullet_starts (text : pystr) : startswith (rebullet text) BULLET = true.
Proof.
  rewrite rebullet_lines. cbv zeta.
  destruct (map strip _) as [|l ls]; [reflexivity|].
  simpl map. apply startswith_join, bullet_line_starts.
Qed.

(** Either the text went through unchanged, already bulleted once
    left-stripped, or the result starts with the bullet. *)
Lemma focused_result_cases (text : pystr) :
  (focused_result text = text /\ nonempty text = true /\
   startswith (lstrip text) BULLET = true) \/
  startswith (focused_result text) BULLET = true.
Proof.
  unfold focused_result. destruct (nonempty text) eqn:Hne.
  - destruct (startswith (lstrip text) BULLET) eqn:Hs.
    + left. now repeat split.
    + right. change (startswith (rebullet text) BULLET = true). apply rebullet_starts.
  - right. reflexivity.
Qed.

Lemma focused_result_stripped_starts (text : pystr) :
  stripped text -> startswith (focused_result text) BULLET = true.
Proof.
  intros Hs. destruct (focused_result_cases text) as [(E & _ & H) | H]; [|exact H].
  rewrite E. rewrite lstrip_fix in H; [exact H|].
  pose proof (strip_head text) as Hh. now rewrite Hs in Hh.
Qed.

End FocusedShape.

(** X1. Whatever Gemini answers, when the call returns, [summarize_focused]
    returns a text that starts with the bullet; in particular it is never
    empty. *)
Theorem summarize_focused_always_bulleted
        (R : Runtime) (transcript focus : pystr) (log : list event) (response : pyval) :
  generate_content R log (focused_prompt transcript focus) = inr response ->
  exists s rest,
    summarize_focused R transcript focus log =
      (log ++ [EvGenerate (focused_prompt transcript focus)], inr s) /\
    s = BULLET ++ rest.
Proof.
  intros Hgen.
  pose proof (extract_text_spec response) as Hext.
  set (text := match direct_text response with
               | Some s => s
               | None => nested_text response
               end) in Hext.
  rewrite (summarize_focused_run R transcript focus log response text Hgen Hext).
  destruct (bullet_head _ (focused_result_stripped_starts _ (strip_idem text)))
    as [rest E].
  eexists _, rest. split; [reflexivity | exact E].
Qed.

Lemma summarize_focused_always_bulleted_witness :
  exists rest,
    snd (summarize_focused plain_focus_runtime (u8 "we ship on friday") (u8 "deadlines") [])
    = inr (BULLET ++ rest).
Proof.
  destruct (summarize_focused_always_bulleted plain_focus_runtime
              (u8 "we ship on friday") (u8 "deadlines") []
              (Sample.text_response "Here are the points:

  ship on friday
Ann owns the release") eq_refl) as (s & rest & E & ->).
  exists rest. now rewrite E.
Defined.

(** X2. The post-processing of the focused summary is idempotent: applied
    to its own result it changes nothing. *)
Theorem focused_result_idempotent (text : pystr) :
  focused_result (focused_result text) = focused_result text.
Proof.
  destruct (focused_result_cases text) as [(E & _ & _) | H].
  - now rewrite !E.
  - now apply focused_result_bulleted.
Qed.

(** X3. A response whose extracted text starts with the bullet is returned
    as extracted: no line of it is touched, bulleted or not. *)
Theorem summarize_focused_keeps_bulleted_text
        (R : Runtime) (transcript focus : pystr) (log : list event)
        (response : pyval) (text : pystr) :
  generate_content R log (focused_prompt transcript focus) = inr response ->
  extract_text response = inr text ->
  startswith text BULLET = true ->
  summarize_focused R transcript focus log =
  (log ++ [EvGenerate (focused_prompt transcript focus)], inr text).
Proof.
  intros Hgen Hext Hb.
  rewrite (summarize_focused_run R transcript focus log response text Hgen Hext).
  rewrite (extract_text_stripped response text Hext).
  now rewrite (focused_result_bulleted text Hb).
Qed.

Lemma summarize_focused_keeps_bulleted_text_witness :
  snd (summarize_focused mixed_bullets (u8 "we ship on friday") (u8 "deadlines") []) =
  inr (u8 "• ship friday
and tell Ann").
Proof.
  rewrite (summarize_focused_keeps_bulleted_text mixed_bullets
             (u8 "we ship on friday") (u8 "deadlines") []
             (Sample.text_response " • ship friday
and tell Ann
") (u8 "• ship friday
and tell Ann")); reflexivity.
Defined.

(** X4. When the extracted text is not empty and does not start with the
    bullet, the result has at least one line, and every line of it, as
    [splitlines] reads them, starts with the bullet. *)
Theorem summarize_focused_rebulleted_lines
        (R : Runtime) (transcript focus : pystr) (log : list event)
        (response : pyval) (text : pystr) :
  generate_content R log (focused_prompt transcript focus) = inr response ->
  extract_text response = inr text ->
  text <> [] ->
  startswith text BULLET = false ->
  exists result,
    summarize_focused R transcript focus log =
      (log ++ [EvGenerate (focused_prompt transcript focus)], inr result) /\
    splitlines result <> [] /\
    Forall (fun line => startswith line BULLET = true) (splitlines result).
Proof.
  intros Hgen Hext Hne Hb.
  pose proof (extract_text_stripped response text Hext) as Hs.
  assert (Hstart : startswith (lstrip text) BULLET = false).
  { rewrite lstrip_fix; [exact Hb|].
    pose proof (strip_head text) as Hh. now rewrite Hs in Hh. }
  destruct (summarize_focused_rebullet_run R transcript focus log response text
              Hgen Hext Hne Hstart) as (Hlines & Hrun & Hsplit).
  eexists. split; [exact Hrun|]. rewrite Hsplit. split.
  - intros E. apply map_eq_nil in E. contradiction.
  - apply Forall_forall. intros line Hin.
    apply in_map_iff in Hin. destruct Hin as (l & <- & _). apply bullet_line_starts.
Qed.

Lemma summarize_focused_rebulleted_lines_witness :
  exists result,
    snd (summarize_focused plain_focus_runtime (u8 "we ship on friday") (u8 "deadlines") [])
      = inr result /\
    splitlines result <> [] /\
    Forall (fun line => startswith line BULLET = true) (splitlines result).
Proof.
  destruct (summarize_focused_rebulleted_lines plain_focus_runtime
              (u8 "we ship on friday") (u8 "deadlines") []
              (Sample.text_response "Here are the points:

  ship on friday
Ann owns the release")
              (u8 "Here are the points:

  ship on friday
Ann owns the release") eq_refl eq_refl ltac:(discriminate) eq_refl)
    as (result & E & Hne & F).
  exists result. rewrite E. now repeat split.
Defined.

(** ** Transcription: files, cleanup and the transcript *)

Section Transcription.

Variable R : Runtime.

Lemma input_is_not_output (upload : UploadFile) (d : pystr) :
  video_input_path R upload d <> extracted_audio_path d.
Proof.
  unfold video_input_path, extracted_audio_path, path_join. intros E.
  apply app_inv_head in E. apply app_inv_head in E.
  vm_compute in E. discriminate E.
Qed.

Lemma new_events_unique (log new new' : list event) :
  log ++ new = log ++ new' -> new = new'.
Proof. apply app_inv_head. Qed.

Lemma video_events_no_generate (upload : UploadFile) (file_bytes : bytes)
      (log : list event) (prompt : pystr) :
  ~ In (EvGenerate prompt) (video_events R upload file_bytes log).
Proof.
  unfold video_events. destruct (mkdtemp R log) as [e|d].
  - intros [H|[]]. discriminate.
  - cbv zeta. destruct (write_file R _ _ _); [simpl; intuition discriminate|].
    destruct (subprocess_run R _ _); simpl; intuition discriminate.
Qed.

Lemma audio_events_no_generate (upload : UploadFile) (file_bytes : bytes)
      (log : list event) (prompt : pystr) :
  ~ In (EvGenerate prompt) (audio_events R upload file_bytes log).
Proof.
  unfold audio_events. destruct (mkdtemp R log) as [e|d].
  - intros [H|[]]. discriminate.
  - cbv zeta. destruct (write_file R _ _ _); simpl; intuition discriminate.
Qed.

(** What the [with] block hands over when the steps before Whisper
    succeed: Whisper's answer, after the directory is removed. *)
Lemma prepared_block (upload : UploadFile) (file_bytes : bytes)
      (log : list event) (d : pystr) :
  prepared R upload file_bytes log d ->
  with_TemporaryDirectory R (fun tmpdir_path =>
    if is_video_file R (filename upload) (content_type upload) then
      let input_path := video_input_path R upload tmpdir_path in
      write_bytes R input_path file_bytes ;;
      let audio_path := extracted_audio_path tmpdir_path in
      extract_audio_with_ffmpeg R input_path audio_path ;;
      whisper_model_transcribe R audio_path
    else
      let input_path := audio_input_path R upload tmpdir_path in
      write_bytes R input_path file_bytes ;;
      whisper_model_transcribe R input_path) log =
  ((whisper_log R upload file_bytes log d
      ++ [EvTranscribe (whisper_input R upload d)]) ++ [EvCleanup d],
   whisper_transcribe R (whisper_log R upload file_bytes log d)
     (whisper_input R upload d)).
Proof.
  unfold prepared, whisper_log, whisper_input, with_TemporaryDirectory.
  intros [Hmk Hsteps]. rewrite Hmk.
  destruct (is_video_file R (filename upload) (content_type upload)).
  - destruct Hsteps as [Hwr Hff].
    unfold write_bytes, extract_audio_with_ffmpeg, whisper_model_transcribe, perform.
    cbn. rewrite Hwr. cbn. rewrite Hff. reflexivity.
  - unfold write_bytes, whisper_model_transcribe, perform.
    cbn. rewrite Hsteps. reflexivity.
Qed.

End Transcription.

(** X5. Every run of ffmpeg made by [transcribe_with_whisper_local] reads
    the uploaded file written in the temporary directory and writes a
    different file of that directory: the input is never overwritten. *)
Theorem ffmpeg_never_overwrites_its_input
        (R : Runtime) (upload : UploadFile) (file_bytes : bytes)
        (log new : list event) (cmd : list pystr) :
  fst (transcribe_with_whisper_local R upload file_bytes log) = log ++ new ->
  In (EvFfmpeg cmd) new ->
  exists d,
    mkdtemp R log = inr d /\
    cmd = ffmpeg_cmd (video_input_path R upload d) (extracted_audio_path d) /\
    video_input_path R upload d <> extracted_audio_path d.
Proof.
  rewrite transcribe_events. intros E Hin. apply new_events_unique in E. subst new.
  destruct (is_video_file R (filename upload) (content_type upload)).
  - unfold video_events in Hin. destruct (mkdtemp R log) as [e|d].
    + destruct Hin as [H|[]]. discriminate H.
    + exists d. split; [reflexivity|]. split; [|apply input_is_not_output].
      cbv zeta in Hin.
      destruct (write_file R _ _ _).
      * simpl in Hin. intuition discriminate.
      * destruct (subprocess_run R _ _); simpl in Hin;
          repeat destruct Hin as [Hin|Hin]; try discriminate Hin;
          try (now injection Hin as <-); destruct Hin.
  - now apply audio_events_no_ffmpeg in Hin.
Qed.

Lemma ffmpeg_never_overwrites_its_input_witness :
  exists d,
    mkdtemp Sample.happy [] = inr d /\
    [u8 "ffmpeg"; u8 "-y"; u8 "-i"; u8 "/tmp/tmpab12/input.MP4"; u8 "-vn";
     u8 "-ac"; u8 "1"; u8 "-ar"; u8 "16000"; u8 "/tmp/tmpab12/audio.wav"]
    = ffmpeg_cmd (video_input_path Sample.happy Sample.mp4_upload d)
                 (extracted_audio_path d) /\
    video_input_path Sample.happy Sample.mp4_upload d <> extracted_audio_path d.
Proof.
  apply (ffmpeg_never_overwrites_its_input Sample.happy Sample.mp4_upload
           [82; 73; 70; 70] []
           (fst (transcribe_with_whisper_local Sample.happy Sample.mp4_upload
                   [82; 73; 70; 70] []))).
  - reflexivity.
  - vm_compute. right. right. left. reflexivity.
Defined.

(** X6. When the temporary directory cannot be made, nothing else is
    attempted and the exception is raised as it is.  When it is made, it is
    removed by the last event of the call, whatever happened in between,
    and no other directory is made or removed. *)
Theorem temporary_directory_always_removed
        (R : Runtime) (upload : UploadFile) (file_bytes : bytes) (log : list event) :
  (forall e, mkdtemp R log = inl e ->
     transcribe_with_whisper_local R upload file_bytes log = (log ++ [EvMkdtemp], inl e)) /\
  (forall d, mkdtemp R log = inr d ->
     exists mid,
       fst (transcribe_with_whisper_local R upload file_bytes log) =
         log ++ EvMkdtemp :: mid ++ [EvCleanup d] /\
       ~ In EvMkdtemp mid /\
       forall d', ~ In (EvCleanup d') mid).
Proof.
  split.
  - intros e Hmk. unfold transcribe_with_whisper_local.
    apply bind_inl. unfold with_TemporaryDirectory. now rewrite Hmk.
  - intros d Hmk. rewrite transcribe_events.
    unfold video_events, audio_events. rewrite Hmk. cbv zeta.
    destruct (is_video_file R (filename upload) (content_type upload)).
    + destruct (write_file R _ _ _).
      * eexists [_]. split; [reflexivity|]. simpl. intuition discriminate.
      * destruct (subprocess_run R _ _).
        -- eexists [_; _]. split; [reflexivity|]. simpl. intuition discriminate.
        -- eexists [_; _; _]. split; [reflexivity|]. simpl. intuition discriminate.
    + destruct (write_file R _ _ _).
      * eexists [_]. split; [reflexivity|]. simpl. intuition discriminate.
      * eexists [_; _]. split; [reflexivity|]. simpl. intuition discriminate.
Qed.

Lemma temporary_directory_always_removed_witness :
  exists mid,
    fst (transcribe_with_whisper_local ffmpeg_fails Sample.mp4_upload [82; 73; 70; 70] []) =
      [] ++ EvMkdtemp :: mid ++ [EvCleanup (u8 "/tmp/tmpab12")] /\
    ~ In EvMkdtemp mid /\
    forall d', ~ In (EvCleanup d') mid.
Proof.
  apply (proj2 (temporary_directory_always_removed ffmpeg_fails Sample.mp4_upload
                  [82; 73; 70; 70] [])).
  reflexivity.
Defined.

(** X7. A transcript returned by [transcribe_with_whisper_local] has no
    white space at either end: stripping it changes nothing. *)
Theorem transcript_is_stripped
        (R : Runtime) (upload : UploadFile) (file_bytes : bytes)
        (log log' : list event) (transcript : pystr) :
  transcribe_with_whisper_local R upload file_bytes log = (log', inr transcript) ->
  strip transcript = transcript.
Proof.
  unfold transcribe_with_whisper_local. intros H.
  apply bind_inr_inv in H. destruct H as (result & l1 & _ & H).
  apply bind_inr_inv in H. destruct H as (t & l2 & _ & H).
  apply liftE_inr_inv in H. destruct H as [H _].
  apply py_strip_inr in H. destruct H as (t' & _ & ->). apply strip_idem.
Qed.

Lemma transcript_is_stripped_witness :
  strip (u8 "we ship on friday") = u8 "we ship on friday".
Proof.
  apply (transcript_is_stripped Sample.happy Sample.wav_upload [82; 73; 70; 70] []
           (fst (transcribe_with_whisper_local Sample.happy Sample.wav_upload
                   [82; 73; 70; 70] []))).
  vm_compute. reflexivity.
Defined.

(** X8. When the steps before it succeed and Whisper answers with a dict,
    the transcript is the stripped value of its "text" entry, and the empty
    string when the dict has no such entry. *)
Theorem transcript_defaults_to_empty
        (R : Runtime) (upload : UploadFile) (file_bytes : bytes)
        (log : list event) (d : pystr) (answer : list (pystr * pyval)) :
  prepared R upload file_bytes log d ->
  whisper_transcribe R (whisper_log R upload file_bytes log d) (whisper_input R upload d)
    = inr (PDict answer) ->
  (assoc (u8 "text") answer = None ->
     snd (transcribe_with_whisper_local R upload file_bytes log) = inr []) /\
  (forall t, assoc (u8 "text") answer = Some (PStr t) ->
     snd (transcribe_with_whisper_local R upload file_bytes log) = inr (strip t)).
Proof.
  intros Hprep Hans.
  pose proof (prepared_block R upload file_bytes log d Hprep) as Hblock.
  rewrite Hans in Hblock.
  unfold transcribe_with_whisper_local.
  rewrite (bind_inr _ _ _ _ _ Hblock). cbn.
  split.
  - now intros ->.
  - now intros t ->.
Qed.

Lemma transcript_defaults_to_empty_witness :
  snd (transcribe_with_whisper_local silent_whisper Sample.wav_upload [82; 73; 70; 70] [])
  = inr [].
Proof.
  apply (proj1 (transcript_defaults_to_empty silent_whisper Sample.wav_upload
                  [82; 73; 70; 70] [] (u8 "/tmp/tmpab12")
                  [(u8 "language", PStr (u8 "en"))]
                  ltac:(split; vm_compute; reflexivity) eq_refl)).
  reflexivity.
Defined.

(** ** The request as a whole *)

Section Request.

Variable R : Runtime.

(** Each of the four operations makes one call of Gemini, with its own
    prompt, whether it returns or raises. *)
Lemma summarize_main_fst (t l : pystr) (log : list event) :
  fst (summarize_main R t l log) = log ++ [EvGenerate (main_prompt t l)].
Proof.
  unfold summarize_main. rewrite bind_silent_fst; [reflexivity|].
  intros a l0. reflexivity.
Qed.

Lemma summarize_focused_fst (t f : pystr) (log : list event) :
  fst (summarize_focused R t f log) = log ++ [EvGenerate (focused_prompt t f)].
Proof.
  unfold summarize_focused. rewrite bind_silent_fst; [reflexivity|].
  intros a l0. cbn -[extract_text]. unfold liftE. now destruct (extract_text a).
Qed.

Lemma extract_structured_insights_fst (t : pystr) (log : list event) :
  fst (extract_structured_insights R t log) = log ++ [EvGenerate (insights_prompt t)].
Proof.
  unfold extract_structured_insights. rewrite bind_silent_fst; [reflexivity|].
  intros a l0. cbn -[extract_text]. unfold liftE.
  destruct (extract_text a) as [e|x]; [reflexivity|].
  now destruct (json_loads R x).
Qed.

Lemma generate_diarized_transcript_fst (t : pystr) (log : list event) :
  fst (generate_diarized_transcript R t log) = log ++ [EvGenerate (diarize_prompt t)].
Proof.
  unfold generate_diarized_transcript. rewrite bind_silent_fst; [reflexivity|].
  intros a l0. reflexivity.
Qed.

Lemma focused_summary_step_fst (t focus : pystr) (log : list event) :
  fst (focused_summary_step R t focus log) =
  log ++ (if nonempty (strip focus) then [EvGenerate (focused_prompt t (strip focus))] else []).
Proof.
  unfold focused_summary_step. destruct (nonempty (strip focus)).
  - apply summarize_focused_fst.
  - cbn. now rewrite app_nil_r.
Qed.

(** One step of a sequence: it raises and the sequence stops, or it
    returns and the sequence goes on from the log it left. *)
Lemma bind_step {A B : Type} (m : Py A) (k : A -> Py B) (log : list event) :
  (exists e, m log = (fst (m log), inl e) /\ bind m k log = (fst (m log), inl e)) \/
  (exists a, m log = (fst (m log), inr a) /\ bind m k log = k a (fst (m log))).
Proof.
  cbn. destruct (m log) as [log1 [e|a]]; simpl.
  - left. now exists e.
  - right. now exists a.
Qed.

(** Reading the four fields and building the body calls nothing. *)
Lemma assemble_fst (structured : pyval) (summary focused transcript diarized : pystr)
      (log : list event) :
  fst ((actions <- liftE (py_get structured (u8 "actions") (PList [])) ;;
        decisions <- liftE (py_get structured (u8 "decisions") (PList [])) ;;
        owners <- liftE (py_get structured (u8 "owners") (PList [])) ;;
        risks <- liftE (py_get structured (u8 "risks") (PList [])) ;;
        ret (PDict [(u8 "summary", PStr summary);
                    (u8 "focused_summary", PStr focused);
                    (u8 "actions", actions);
                    (u8 "decisions", decisions);
                    (u8 "owners", owners);
                    (u8 "risks", risks);
                    (u8 "transcript", PStr transcript);
                    (u8 "diarized", PStr diarized)]) : Py pyval) log) = log.
Proof.
  cbn. unfold liftE.
  destruct (py_get structured (u8 "actions") (PList [])); [reflexivity|].
  destruct (py_get structured (u8 "decisions") (PList [])); [reflexivity|].
  destruct (py_get structured (u8 "owners") (PList [])); [reflexivity|].
  destruct (py_get structured (u8 "risks") (PList [])); reflexivity.
Qed.

(** The calls of the third stage are a non-empty prefix of the plan, and
    the whole plan once diarization has returned. *)
Lemma summaries_and_insights_calls (t language focus : pystr) (log : list event) :
  exists n,
    (1 <= n <= List.length (planned_calls t language focus))%nat /\
    fst (summaries_and_insights R t language focus log) =
      log ++ firstn n (planned_calls t language focus) /\
    (forall body, snd (summaries_and_insights R t language focus log) = inr body ->
       n = List.length (planned_calls t language focus)).
Proof.
  unfold summaries_and_insights, planned_calls.
  destruct (bind_step (summarize_main R t language)
              (fun summary =>
                 focused_summary <- focused_summary_step R t focus ;;
                 structured <- extract_structured_insights R t ;;
                 diarized <- generate_diarized_transcript R t ;;
                 actions <- liftE (py_get structured (u8 "actions") (PList [])) ;;
                 decisions <- liftE (py_get structured (u8 "decisions") (PList [])) ;;
                 owners <- liftE (py_get structured (u8 "owners") (PList [])) ;;
                 risks <- liftE (py_get structured (u8 "risks") (PList [])) ;;
                 ret (PDict [(u8 "summary", PStr summary);
                             (u8 "focused_summary", PStr focused_summary);
                             (u8 "actions", actions);
                             (u8 "decisions", decisions);
                             (u8 "owners", owners);
                             (u8 "risks", risks);
                             (u8 "transcript", PStr t);
                             (u8 "diarized", PStr diarized)])) log)
    as [(e & _ & ->) | (summary & _ & ->)]; rewrite summarize_main_fst.
  { exists 1%nat. simpl. split; [split; [lia|]|split; [reflexivity|discriminate]].
    destruct (nonempty (strip focus)); simpl; lia. }
  match goal with
  | |- context [bind (focused_summary_step R t focus) ?k ?l] =>
    destruct (bind_step (focused_summary_step R t focus) k l)
      as [(e & _ & ->) | (focused & _ & ->)]
  end; rewrite focused_summary_step_fst.
  { destruct (nonempty (strip focus)).
    - exists 2%nat. simpl. rewrite <- app_assoc.
      split; [lia|]. split; [reflexivity | discriminate].
    - exists 1%nat. simpl. rewrite app_nil_r.
      split; [lia|]. split; [reflexivity | discriminate]. }
  match goal with
  | |- context [bind (extract_structured_insights R t) ?k ?l] =>
    destruct (bind_step (extract_structured_insights R t) k l)
      as [(e & _ & ->) | (structured & _ & ->)]
  end; rewrite extract_structured_insights_fst.
  { destruct (nonempty (strip focus)).
    - exists 3%nat. simpl. rewrite <- !app_assoc.
      split; [lia|]. split; [reflexivity | discriminate].
    - exists 2%nat. simpl. rewrite app_nil_r, <- app_assoc.
      split; [lia|]. split; [reflexivity | discriminate]. }
  match goal with
  | |- context [bind (generate_diarized_transcript R t) ?k ?l] =>
    destruct (bind_step (generate_diarized_transcript R t) k l)
      as [(e & _ & ->) | (diarized & _ & ->)]
  end; rewrite generate_diarized_transcript_fst.
  { destruct (nonempty (strip focus)).
    - exists 4%nat. simpl. rewrite <- !app_assoc.
      split; [lia|]. split; [reflexivity | discriminate].
    - exists 3%nat. simpl. rewrite app_nil_r, <- !app_assoc.
      split; [lia|]. split; [reflexivity | discriminate]. }
  rewrite assemble_fst.
  destruct (nonempty (strip focus)).
  - exists 4%nat. simpl. rewrite <- !app_assoc. split; [lia|]. now split.
  - exists 3%nat. simpl. rewrite app_nil_r, <- !app_assoc. split; [lia|]. now split.
Qed.

End Request.

(** X9. A failure before the third stage ends the request without any call
    of Gemini: when the upload cannot be read the response is 400 with
    "Failed to read file: " and nothing else is attempted; when
    transcription raises the response is 500 with "Transcription failed: "
    and the events of the request hold no call of Gemini. *)
Theorem early_failures_never_reach_gemini
        (R : Runtime) (audio : UploadFile) (language focus : pystr) (log : list event) :
  (forall e, upload_read R log audio = inl e ->
     process_meeting R audio language focus log =
       (log ++ [EvRead audio],
        JSONResponse 400
          (PDict [(u8 "error", PStr (u8 "Failed to read file: " ++ exc_str e))]))) /\
  (forall file_bytes log2 e,
     upload_read R log audio = inr file_bytes ->
     transcribe_with_whisper_local R audio file_bytes (log ++ [EvRead audio]) = (log2, inl e) ->
     process_meeting R audio language focus log =
       (log2,
        JSONResponse 500
          (PDict [(u8 "error", PStr (u8 "Transcription failed: " ++ exc_str e))])) /\
     exists new,
       log2 = (log ++ [EvRead audio]) ++ new /\
       forall prompt, ~ In (EvGenerate prompt) new).
Proof.
  split.
  - intros e Hread. unfold process_meeting, audio_read, perform. now rewrite Hread.
  - intros file_bytes log2 e Hread Htr. split.
    + unfold process_meeting, audio_read, perform. now rewrite Hread, Htr.
    + pose proof (transcribe_events R audio file_bytes (log ++ [EvRead audio])) as Hev.
      rewrite Htr in Hev. simpl in Hev. eexists. split; [exact Hev|].
      intros prompt.
      destruct (is_video_file R (filename audio) (content_type audio));
        [apply video_events_no_generate | apply audio_events_no_generate].
Qed.

Lemma early_failures_never_reach_gemini_witness :
  process_meeting unreadable Sample.wav_upload (u8 "English") (u8 "risks") [] =
    ([EvRead Sample.wav_upload],
     JSONResponse 400
       (PDict [(u8 "error", PStr (u8 "Failed to read file: connection reset"))])) /\
  snd (process_meeting ffmpeg_fails Sample.mp4_upload (u8 "English") (u8 "risks") []) =
    JSONResponse 500
      (PDict [(u8 "error",
               PStr (u8 "Transcription failed: Command 'ffmpeg' returned non-zero exit status 1."))]).
Proof.
  split.
  - apply (proj1 (early_failures_never_reach_gemini unreadable Sample.wav_upload
                    (u8 "English") (u8 "risks") [])
             (mkExn (u8 "OSError") (u8 "connection reset"))).
    reflexivity.
  - rewrite (proj1 (proj2 (early_failures_never_reach_gemini ffmpeg_fails Sample.mp4_upload
                             (u8 "English") (u8 "risks") [])
                      [82; 73; 70; 70]
                      (fst (transcribe_with_whisper_local ffmpeg_fails Sample.mp4_upload
                              [82; 73; 70; 70] [EvRead Sample.mp4_upload]))
                      (mkExn (u8 "CalledProcessError")
                             (u8 "Command 'ffmpeg' returned non-zero exit status 1."))
                      eq_refl ltac:(vm_compute; reflexivity))).
    vm_compute. reflexivity.
Defined.

(** X10. For an upload classified as video, when ffmpeg raises, Whisper is
    not called: the request makes the directory, writes the input, runs
    ffmpeg, removes the directory, and answers 500 with "Transcription
    failed: " followed by the text of ffmpeg's exception. *)
Theorem ffmpeg_failure_stops_the_request
        (R : Runtime) (audio : UploadFile) (language focus : pystr)
        (log : list event) (file_bytes : bytes) (d : pystr) (e : exn) :
  upload_read R log audio = inr file_bytes ->
  is_video_file R (filename audio) (content_type audio) = true ->
  mkdtemp R (log ++ [EvRead audio]) = inr d ->
  write_file R ((log ++ [EvRead audio]) ++ [EvMkdtemp])
             (video_input_path R audio d) file_bytes = inr tt ->
  subprocess_run R
    (((log ++ [EvRead audio]) ++ [EvMkdtemp]) ++ [EvWrite (video_input_path R audio d) file_bytes])
    (ffmpeg_cmd (video_input_path R audio d) (extracted_audio_path d)) = inl e ->
  process_meeting R audio language focus log =
  (log ++ [EvRead audio; EvMkdtemp;
           EvWrite (video_input_path R audio d) file_bytes;
           EvFfmpeg (ffmpeg_cmd (video_input_path R audio d) (extracted_audio_path d));
           EvCleanup d],
   JSONResponse 500
     (PDict [(u8 "error", PStr (u8 "Transcription failed: " ++ exc_str e))])).
Proof.
  intros Hread Hv Hmk Hwr Hff.
  unfold process_meeting, audio_read, perform. rewrite Hread.
  unfold transcribe_with_whisper_local, with_TemporaryDirectory.
  rewrite Hv. cbn. rewrite Hmk.
  unfold write_bytes, extract_audio_with_ffmpeg, perform. cbn.
  rewrite Hwr. cbn. rewrite Hff. cbn.
  rewrite <- !app_assoc. reflexivity.
Qed.

Lemma ffmpeg_failure_stops_the_request_witness :
  fst (process_meeting ffmpeg_fails Sample.mp4_upload (u8 "English") (u8 "risks") []) =
  [EvRead Sample.mp4_upload; EvMkdtemp;
   EvWrite (u8 "/tmp/tmpab12/input.MP4") [82; 73; 70; 70];
   EvFfmpeg [u8 "ffmpeg"; u8 "-y"; u8 "-i"; u8 "/tmp/tmpab12/input.MP4"; u8 "-vn";
             u8 "-ac"; u8 "1"; u8 "-ar"; u8 "16000"; u8 "/tmp/tmpab12/audio.wav"];
   EvCleanup (u8 "/tmp/tmpab12")].
Proof.
  rewrite (ffmpeg_failure_stops_the_request ffmpeg_fails Sample.mp4_upload
             (u8 "English") (u8 "risks") [] [82; 73; 70; 70] (u8 "/tmp/tmpab12")
             (mkExn (u8 "CalledProcessError")
                    (u8 "Command 'ffmpeg' returned non-zero exit status 1."))
             eq_refl ltac:(vm_compute; reflexivity) eq_refl eq_refl eq_refl).
  vm_compute. reflexivity.
Defined.

(** X12. Once the upload is read and transcribed, the calls of Gemini made
    by the request are a non-empty prefix of the plan: main summary,
    focused summary when the focus is not blank, insights, diarization,
    each at most once, in this order and on the same transcript; a
    response with status 200 has made them all. *)
Theorem gemini_calls_follow_the_plan
        (R : Runtime) (audio : UploadFile) (language focus : pystr)
        (log log1 log2 : list event) (file_bytes : bytes) (transcript : pystr) :
  audio_read R audio log = (log1, inr file_bytes) ->
  transcribe_with_whisper_local R audio file_bytes log1 = (log2, inr transcript) ->
  exists n,
    (1 <= n <= List.length (planned_calls transcript language focus))%nat /\
    fst (process_meeting R audio language focus log) =
      log2 ++ firstn n (planned_calls transcript language focus) /\
    (status_code (snd (process_meeting R audio language focus log)) = 200%Z ->
     fst (process_meeting R audio language focus log) =
       log2 ++ planned_calls transcript language focus).
Proof.
  intros Hread Htr.
  rewrite (process_meeting_after_transcription R audio language focus
             log log1 log2 file_bytes transcript Hread Htr).
  destruct (summaries_and_insights_calls R transcript language focus log2)
    as (n & Hn & Hfst & Hall).
  exists n. split; [exact Hn|].
  destruct (summaries_and_insights R transcript language focus log2)
    as [log3 [e|body]]; cbn [fst snd] in *.
  - split; [exact Hfst|]. intros H. discriminate H.
  - split; [exact Hfst|]. intros _. rewrite Hfst.
    pose proof (Hall body eq_refl) as Hlen. subst n.
    now rewrite firstn_all.
Qed.

Lemma gemini_calls_follow_the_plan_witness :
  filter is_generate
    (fst (process_meeting Sample.happy Sample.wav_upload (u8 "French") (u8 "  ") [])) =
  [EvGenerate (main_prompt (u8 "we ship on friday") (u8 "French"));
   EvGenerate (insights_prompt (u8 "we ship on friday"));
   EvGenerate (diarize_prompt (u8 "we ship on friday"))].
Proof.
  destruct (gemini_calls_follow_the_plan Sample.happy Sample.wav_upload
              (u8 "French") (u8 "  ") []
              (fst (audio_read Sample.happy Sample.wav_upload []))
              (fst (transcribe_with_whisper_local Sample.happy Sample.wav_upload
                      [82; 73; 70; 70] [EvRead Sample.wav_upload]))
              [82; 73; 70; 70] (u8 "we ship on friday")
              eq_refl ltac:(vm_compute; reflexivity))
    as (n & _ & _ & Hall).
  rewrite (Hall ltac:(vm_compute; reflexivity)).
  vm_compute. reflexivity.
Defined.

(** ** Insights and summaries inside the response *)



(** X14. [extract_structured_insights] raises only what the call of
    Gemini raised: a failure to extract or to parse the answer never
    surfaces. *)
Theorem insights_raise_only_api_errors
        (R : Runtime) (transcript : pystr) (log log' : list event) (e : exn) :
  extract_structured_insights R transcript log = (log', inl e) ->
  generate_content R log (insights_prompt transcript) = inl e.
Proof.
  unfold extract_structured_insights, gemini_generate_content, perform. cbn -[extract_text].
  destruct (generate_content R log (insights_prompt transcript)) as [e'|response].
  - now intros [= _ ->].
  - unfold liftE. rewrite extract_text_spec.
    destruct (json_loads R _); discriminate.
Qed.

Lemma insights_raise_only_api_errors_witness :
  generate_content insights_down [] (insights_prompt (u8 "we ship on friday")) =
  inl Sample.api_error.
Proof.
  apply (insights_raise_only_api_errors insights_down (u8 "we ship on friday") []
           (fst (extract_structured_insights insights_down (u8 "we ship on friday") []))).
  vm_compute. reflexivity.
Defined.

(** X15. The text returned by [summarize_main] and by
    [generate_diarized_transcript] has no white space at either end, and
    these two raise only what the call of Gemini raised. *)
Theorem summaries_are_stripped
        (R : Runtime) (transcript language : pystr) (log log' : list event) :
  (forall s, summarize_main R transcript language log = (log', inr s) -> strip s = s) /\
  (forall s, generate_diarized_transcript R transcript log = (log', inr s) ->
     strip s = s) /\
  (forall e, summarize_main R transcript language log = (log', inl e) ->
     generate_content R log (main_prompt transcript language) = inl e) /\
  (forall e, generate_diarized_transcript R transcript log = (log', inl e) ->
     generate_content R log (diarize_prompt transcript) = inl e).
Proof.
  unfold summarize_main, generate_diarized_transcript, gemini_generate_content, perform.
  cbn -[extract_text]. unfold liftE.
  repeat split.
  - intros s. destruct (generate_content R log (main_prompt transcript language));
      [discriminate|].
    intros [= _ H]. exact (extract_text_stripped _ _ H).
  - intros s. destruct (generate_content R log (diarize_prompt transcript));
      [discriminate|].
    intros [= _ H]. exact (extract_text_stripped _ _ H).
  - intros e. destruct (generate_content R log (main_prompt transcript language));
      [now intros [= _ ->]|].
    rewrite extract_text_spec. discriminate.
  - intros e. destruct (generate_content R log (diarize_prompt transcript));
      [now intros [= _ ->]|].
    rewrite extract_text_spec. discriminate.
Qed.

Lemma summaries_are_stripped_witness :
  strip (u8 "Speaker 1: we ship on friday") = u8 "Speaker 1: we ship on friday".
Proof.
  apply (proj1 (proj2 (summaries_are_stripped Sample.happy (u8 "we ship on friday")
                         (u8 "English") []
                         (fst (generate_diarized_transcript Sample.happy
                                 (u8 "we ship on friday") []))))).
  vm_compute. reflexivity.
Defined.

(** X16. No two of the four operations ever send the same prompt, whatever
    the transcripts, the language and the focus. *)
Theorem prompts_pairwise_distinct (t1 t2 language focus : pystr) :
  main_prompt t1 language <> focused_prompt t2 focus /\
  main_prompt t1 language <> insights_prompt t2 /\
  main_prompt t1 language <> diarize_prompt t2 /\
  focused_prompt t1 focus <> insights_prompt t2 /\
  focused_prompt t1 focus <> diarize_prompt t2 /\
  insights_prompt t1 <> diarize_prompt t2.
Proof.
  repeat split; intros E; apply (f_equal (fun p => nth_error p 1)) in E;
    rewrite ?main_prompt_kind, ?focused_prompt_kind, ?insights_prompt_kind,
      ?diarize_prompt_kind in E;
    discriminate E.
Qed.
